(** * scanpipe.models: a shallow embedding and its properties

    The development follows [scanpipe/models.py]: the Python values carried
    by JSON columns and keyword mappings, outcomes of calls that may raise,
    the work-directory tree on disk, the database tables, and then the model
    classes with the methods the properties are about.

    Conventions.
    - A Python [str] is a [string]; its characters are code points below 256.
    - A call that may raise returns a [res]; a call that also changes the
      database or the disk returns the outcome together with the state it
      leaves behind, because a raise does not undo what was done before it.
    - An exception is an instance of [Exception]: what an
      [except Exception] clause catches.
    - What Django, pathlib, shutil and re do is written out as far as the
      methods below depend on it; the assumptions are stated at each
      definition. *)

From Stdlib Require Import ZArith Ascii Bool Lia.
From Stdlib Require String.
From stdpp Require Import base option list gmap strings.

Set Warnings "-register-all".

(** ** Python values and outcomes *)

(** The values found in scan results, package data and JSON columns. *)
Inductive pyval : Type :=
  | PNone
  | PBool (b : bool)
  | PInt (z : Z)
  | PStr (s : string)
  | PList (items : list pyval)
  | PDict (entries : list (string * pyval)).

(** Python truth value: [None], [False], [0], [""], [[]] and [{}] are false. *)
Definition truthy (v : pyval) : bool :=
  match v with
  | PNone => false
  | PBool b => b
  | PInt z => negb (z =? 0)%Z
  | PStr s => negb (String.eqb s "")
  | PList items => match items with [] => false | _ => true end
  | PDict entries => match entries with [] => false | _ => true end
  end.

(** A raised exception: its class, [str(e)], and the frames that
    [traceback.format_tb(e.__traceback__)] renders, one string per frame. *)
Record exn : Type := mkExn {
  exn_class : string;
  exn_message : string;
  exn_frames : list string
}.

Inductive res (A : Type) : Type :=
  | Ok (a : A)
  | Raise (e : exn).
Arguments Ok {A} a.
Arguments Raise {A} e.

Definition AttributeError (msg : string) : exn := mkExn "AttributeError" msg [].
Definition IndexError (msg : string) : exn := mkExn "IndexError" msg [].
Definition ValueError (msg : string) : exn := mkExn "ValueError" msg [].
Definition TypeError (msg : string) : exn := mkExn "TypeError" msg [].
Definition IntegrityError (msg : string) : exn := mkExn "IntegrityError" msg [].
Definition FileNotFoundError (msg : string) : exn := mkExn "FileNotFoundError" msg [].
Definition FileExistsError (msg : string) : exn := mkExn "FileExistsError" msg [].
Definition NotADirectoryError (msg : string) : exn := mkExn "NotADirectoryError" msg [].

(** ** Text: the regular expression and [str.split] of [Run.get_run_id] *)

Module Text.

Definition code (c : ascii) : nat := nat_of_ascii c.

(** The class [[0-9]]. *)
Definition is_digit (c : ascii) : bool :=
  (48 <=? code c)%nat && (code c <=? 57)%nat.

(** [str.isspace] on one character below 256: tab to carriage return,
    the four separators 28..31, space, NEL and the no-break space. *)
Definition is_space (c : ascii) : bool :=
  let n := code c in
  ((9 <=? n)%nat && (n <=? 13)%nat) || ((28 <=? n)%nat && (n <=? 32)%nat)
  || (n =? 133)%nat || (n =? 160)%nat.

(** [s] without the prefix [p], when it starts with it. *)
Fixpoint strip_prefix (p s : string) : option string :=
  match p, s with
  | EmptyString, _ => Some s
  | String a p', String b s' =>
      if Ascii.eqb a b then strip_prefix p' s' else None
  | String _ _, EmptyString => None
  end.

(** The longest run of digits at the start of [s]: greedy [[0-9]*]. *)
Fixpoint digits_prefix (s : string) : string :=
  match s with
  | String c s' => if is_digit c then String c (digits_prefix s') else ""
  | EmptyString => ""
  end.

(** [re.match] of [run-id [0-9]+] at the start of [s]: the matched text. *)
Definition match_here (s : string) : option string :=
  match strip_prefix "run-id " s with
  | Some rest =>
      match digits_prefix rest with
      | EmptyString => None
      | ds => Some ("run-id " +:+ ds)
      end
  | None => None
  end.

(** [re.compile(r"run-id [0-9]+").search(s)]: the leftmost match, with
    [.group()] already taken; [None] is Python's [None], no match. *)
Fixpoint search (s : string) : option string :=
  match match_here s with
  | Some m => Some m
  | None =>
      match s with
      | String _ s' => search s'
      | EmptyString => None
      end
  end.

(** [str.split()] without argument: the maximal runs of characters that
    are not white space. [word] is the run being read, reversed. *)
Fixpoint split_from (word : list ascii) (s : string) : list string :=
  let flush := match word with
               | [] => []
               | _ => [String.string_of_list_ascii (rev word)]
               end in
  match s with
  | EmptyString => flush
  | String c s' =>
      if is_space c then flush ++ split_from [] s'
      else split_from (c :: word) s'
  end.

Definition split (s : string) : list string := split_from [] s.

Definition all_digits (s : string) : bool :=
  forallb is_digit (String.list_ascii_of_string s).

(** Whether [s] starts with a digit. *)
Definition starts_with_digit (s : string) : bool :=
  match s with
  | String c _ => is_digit c
  | EmptyString => false
  end.

End Text.

(** ** Run *)

Module Run.

(** The fields of [Run] read by the methods below. [task_id],
    [task_exitcode] and [task_output] come from [AbstractTaskFieldsModel];
    [project] is the foreign key, held as the project's primary key. *)
Record t : Type := mk {
  uuid : N;
  project : N;
  pipeline : string;
  created_date : Z;
  description : string;
  task_id : option string;
  task_exitcode : option Z;
  task_output : string
}.

Definition task_succeeded (self : t) : bool :=
  match task_exitcode self with
  | Some 0%Z => true
  | _ => false
  end.

(** [get_run_id]: [search] returns [None] when nothing matches and the
    method calls [.group()] on it at once, which raises. The test on
    [run_id_string] comes after. *)
Definition get_run_id (self : t) : res (option string) :=
  if negb (String.eqb (task_output self) "") then
    match Text.search (task_output self) with
    | None =>
        Raise (AttributeError "'NoneType' object has no attribute 'group'")
    | Some run_id_string =>
        if negb (String.eqb run_id_string "") then
          match last (Text.split run_id_string) with
          | Some word => Ok (Some word)
          | None => Raise (IndexError "list index out of range")
          end
        else Ok None
    end
  else Ok None.

End Run.

(** ** The disk: what [pathlib] and [shutil] do to the work directories *)

Module FS.

Inductive node : Type := File | Dir.

#[global] Instance node_eq_dec : EqDecision node.
Proof. solve_decision. Defined.

(** A pure path is its [parts]: an absolute path starts with the anchor
    ["/"] (or ["//"]), a relative one is read from the current directory,
    whose own path is the empty list. The disk holds no symbolic link, and
    the components of a path are taken as they are written: the operating
    system reads [..] as the directory above, so that what is said below of
    one path against another is said of [plain] paths. *)
Definition path : Type := list string.

(** A path from the root [/] without [..]: its components, as written,
    are the directories the operating system walks through. *)
Definition plain (p : path) : Prop := head p = Some "/" ∧ ".." ∉ p.

#[global] Instance plain_dec (p : path) : Decision (plain p).
Proof. unfold plain. apply _. Defined.

(** [str.split("/")]: [cur] is the component being read, reversed. *)
Fixpoint split_slash (cur : list ascii) (s : string) : list string :=
  match s with
  | EmptyString => [String.string_of_list_ascii (rev cur)]
  | String c s' =>
      if Ascii.eqb c "/"%char then
        String.string_of_list_ascii (rev cur) :: split_slash [] s'
      else split_slash (c :: cur) s'
  end.

(** The anchor of a POSIX path: one slash, or exactly two. *)
Definition anchor (s : string) : list string :=
  match s with
  | String "/"%char (String "/"%char (String "/"%char _)) => ["/"]
  | String "/"%char (String "/"%char _) => ["//"]
  | String "/"%char _ => ["/"]
  | _ => []
  end.

Definition is_name (c : string) : bool :=
  negb (String.eqb c "") && negb (String.eqb c ".").

(** A text without slash. *)
Definition slash_free (c : string) : bool :=
  forallb (fun a => negb (Ascii.eqb a "/"%char)) (String.list_ascii_of_string c).

(** [Path(s).parts]: empty components and [.] are dropped. *)
Definition Path (s : string) : path :=
  anchor s ++ List.filter is_name (split_slash [] s).

Definition is_absolute (p : path) : bool :=
  match p with
  | c :: _ => String.eqb c "/" || String.eqb c "//"
  | [] => false
  end.

(** [p / q], also [Path(p, q)]: an absolute [q] replaces [p]. *)
Definition joinpath (p q : path) : path :=
  if is_absolute q then q else p ++ q.

(** The paths [Path] builds: an anchor or none, then names that are not
    empty, are not [.] and hold no slash. *)
Definition clean (p : path) : Prop :=
  ∃ a names, p = a ++ names ∧ (a = [] ∨ a = ["/"] ∨ a = ["//"]) ∧
             Forall (fun c => is_name c = true ∧ slash_free c = true) names.

(** [str(p)]: the anchor, then the names joined by slashes; the empty
    path is the current directory. *)
Definition str_path (p : path) : string :=
  match p with
  | [] => "."
  | c :: rest =>
      if is_absolute p then c +:+ String.concat "/" rest
      else String.concat "/" p
  end.

Definition is_root (p : path) : bool :=
  match p with
  | [] => true
  | [c] => String.eqb c "/" || String.eqb c "//"
  | _ => false
  end.

(** The entry stored at [p]; the roots are directories that always exist. *)
Definition entry (fs : gmap path node) (p : path) : option node :=
  if is_root p then Some Dir else fs !! p.

(** Walking down from [seen] through [rest]: every path on the way, the
    last excepted, has to be a directory. The error is the one the system
    call reports: ENOENT for a missing component, ENOTDIR for a file. *)
Fixpoint walk (fs : gmap path node) (seen : path) (rest : list string)
  : option exn :=
  match rest with
  | [] => None
  | c :: rest' =>
      match entry fs seen with
      | Some Dir => walk fs (seen ++ [c]) rest'
      | Some File => Some (NotADirectoryError "")
      | None => Some (FileNotFoundError "")
      end
  end.

(** [os.stat]: what [p] is, when the walk to it succeeds. *)
Definition stat (fs : gmap path node) (p : path) : option node :=
  match walk fs [] p with
  | None => entry fs p
  | Some _ => None
  end.

Definition is_dir (fs : gmap path node) (p : path) : bool :=
  match stat fs p with
  | Some Dir => true
  | _ => false
  end.

Definition is_ENOENT (e : exn) : bool :=
  String.eqb (exn_class e) "FileNotFoundError".

(** [os.mkdir(p)]. Permissions are not modelled: a directory can always
    be created where the path allows it. *)
Definition os_mkdir (fs : gmap path node) (p : path)
  : res unit * gmap path node :=
  match walk fs [] p with
  | Some e => (Raise e, fs)
  | None =>
      match entry fs p with
      | Some _ => (Raise (FileExistsError ""), fs)
      | None => (Ok tt, <[p := Dir]> fs)
      end
  end.

(** [Path.mkdir(parents=False, exist_ok=exist_ok)]. *)
Definition mkdir (exist_ok : bool) (fs : gmap path node) (p : path)
  : res unit * gmap path node :=
  match os_mkdir fs p with
  | (Ok tt, fs') => (Ok tt, fs')
  | (Raise e, fs') =>
      if is_ENOENT e then (Raise e, fs')
      else if exist_ok && is_dir fs' p then (Ok tt, fs')
      else (Raise e, fs')
  end.

(** [Path.mkdir(parents=True, exist_ok=True)] on the path whose parts,
    last first, are [rp]: on ENOENT the parent is made the same way and
    the directory is tried again without [parents]. *)
Fixpoint mkdir_parents_rev (fs : gmap path node) (rp : list string)
  : res unit * gmap path node :=
  match os_mkdir fs (rev rp) with
  | (Ok tt, fs') => (Ok tt, fs')
  | (Raise e, fs') =>
      if is_ENOENT e then
        match rp with
        | [] => (Raise e, fs')
        | _ :: rparent =>
            match mkdir_parents_rev fs' rparent with
            | (Ok tt, fs1) => mkdir true fs1 (rev rp)
            | (Raise e', fs1) => (Raise e', fs1)
            end
        end
      else if is_dir fs' (rev rp) then (Ok tt, fs')
      else (Raise e, fs')
  end.

Definition mkdir_parents (fs : gmap path node) (p : path)
  : res unit * gmap path node :=
  mkdir_parents_rev fs (rev p).

(** Permissions are not kept on this disk: [removable q] is the verdict
    of the operating system on the removal of what is stored at [q], once
    nothing is left below it. [held removable fs k]: something stored at
    or below [k] cannot be removed. *)
Definition held (removable : path → bool) (fs : gmap path node) (k : path)
  : Prop :=
  map_Exists (fun q _ => k `prefix_of` q ∧ removable q = false) fs.

#[global] Instance held_dec (removable : path → bool) (fs : gmap path node)
    (k : path) : Decision (held removable fs k).
Proof. unfold held. apply _. Defined.

(** [shutil.rmtree(p, ignore_errors=True)]: of a directory and all that is
    below it, what can be removed goes; a removal that fails is an error,
    which is ignored and leaves the entry, and with it the directories
    above it, which are not empty. Anything else at [p] (a missing path, a
    regular file) is an error as well and leaves the disk as it was. A
    root is never handed in. *)
Definition rmtree_ignore_errors (removable : path → bool)
    (fs : gmap path node) (p : path) : gmap path node :=
  if is_dir fs p && negb (is_root p) then
    filter (fun kv : path * node =>
              ¬ p `prefix_of` kv.1 ∨ held removable fs kv.1) fs
  else fs.

(** The disk is a tree: whatever is stored can be reached from a root
    through directories. *)
Definition wf (fs : gmap path node) : Prop :=
  map_Forall (fun k n => stat fs k = Some n) fs.

#[global] Instance wf_dec (fs : gmap path node) : Decision (wf fs).
Proof. unfold wf. apply _. Defined.


End FS.

(** ** UUID primary keys *)

Module UUID.

Definition hex_digit (n : N) : ascii :=
  nth (N.to_nat n) (String.list_ascii_of_string "0123456789abcdef") "0"%char.

(** The [width] low hexadecimal digits of [n], lowest first. *)
Fixpoint hex_rev (width : nat) (n : N) : list ascii :=
  match width with
  | O => []
  | S w => hex_digit (n mod 16) :: hex_rev w (n / 16)
  end.

(** ['%032x' % n] for a 128-bit [n] (the low 128 bits of [n]). *)
Definition hex32 (n : N) : string :=
  String.string_of_list_ascii (rev (hex_rev 32 n)).

(** [str(uuid)]: the 32 digits in groups of 8-4-4-4-12. *)
Definition str (u : N) : string :=
  let h := hex32 u in
  String.substring 0 8 h +:+ "-" +:+ String.substring 8 4 h +:+ "-" +:+
  String.substring 12 4 h +:+ "-" +:+ String.substring 16 4 h +:+ "-" +:+
  String.substring 20 12 h.

(** A lower-case hexadecimal digit. *)
Definition is_hex_digit (c : ascii) : bool :=
  existsb (Ascii.eqb c) (String.list_ascii_of_string "0123456789abcdef").

(** [UUIDPKModel.short_uuid]: [str(self.uuid)[0:8]]. *)
Definition short_uuid (u : N) : string := String.substring 0 8 (str u).

End UUID.

(** ** Project *)

Module Project.

(** [adding] is Django's [_state.adding]: true until the instance has been
    written. [uuid] is drawn by [uuid4] when the instance is built. *)
Record t : Type := mk {
  adding : bool;
  uuid : N;
  created_date : Z;
  name : string;
  work_directory : string;
  extra_data : pyval
}.

Definition WORK_DIRECTORIES : list string :=
  ["input"; "output"; "codebase"; "tmp"].

(** [Path(self.work_directory, subdirectory)]. *)
Definition subdirectory_path (wd subdirectory : string) : FS.path :=
  FS.joinpath (FS.Path wd) (FS.Path subdirectory).

Definition set_work_directory (wd : string) (self : t) : t :=
  mk (adding self) (uuid self) (created_date self) (name self) wd
     (extra_data self).

Definition short_uuid (self : t) : string := UUID.short_uuid (uuid self).

Definition work_path (self : t) : FS.path := FS.Path (work_directory self).
Definition input_path (self : t) : FS.path :=
  FS.joinpath (work_path self) (FS.Path "input").
Definition output_path (self : t) : FS.path :=
  FS.joinpath (work_path self) (FS.Path "output").
Definition codebase_path (self : t) : FS.path :=
  FS.joinpath (work_path self) (FS.Path "codebase").
Definition tmp_path (self : t) : FS.path :=
  FS.joinpath (work_path self) (FS.Path "tmp").

(** The loop of [setup_work_directory] over the subdirectories still to
    be made; a raise leaves the ones already made in place. *)
Fixpoint setup_loop (wd : string) (subdirectories : list string)
    (disk : gmap FS.path FS.node) : res unit * gmap FS.path FS.node :=
  match subdirectories with
  | [] => (Ok tt, disk)
  | subdirectory :: more =>
      match FS.mkdir_parents disk (subdirectory_path wd subdirectory) with
      | (Ok tt, disk') => setup_loop wd more disk'
      | (Raise e, disk') => (Raise e, disk')
      end
  end.

Definition setup_work_directory (self : t) (disk : gmap FS.path FS.node)
  : res unit * gmap FS.path FS.node :=
  setup_loop (work_directory self) WORK_DIRECTORIES disk.

(** [clear_tmp_directory]; [removable] is the verdict of the operating
    system on each removal. *)
Definition clear_tmp_directory (removable : FS.path → bool) (self : t)
    (disk : gmap FS.path FS.node) : res unit * gmap FS.path FS.node :=
  FS.mkdir true (FS.rmtree_ignore_errors removable disk (tmp_path self))
    (tmp_path self).

(** A row that stands in the way of inserting [self]: the same primary
    key, or the same [name] ([unique=True]). *)
Definition conflicts (self row : t) : bool :=
  N.eqb (uuid self) (uuid row) || String.eqb (name self) (name row).

(** Django's [Model.save] on the project table. A new instance whose
    primary key has a default is inserted without a prior UPDATE, and
    [created_date] is set on insert ([auto_now_add]); an instance that was
    written before updates its row. The table refuses a conflicting row
    with [IntegrityError]. Column lengths are not checked. *)
Definition Model_save (now : Z) (self : t) (table : list t)
  : res unit * t * list t :=
  if adding self then
    let self := mk true (uuid self) now (name self) (work_directory self)
                   (extra_data self) in
    if existsb (conflicts self) table then
      (Raise (IntegrityError "duplicate key value violates unique constraint"),
       self, table)
    else
      let saved := mk false (uuid self) now (name self)
                      (work_directory self) (extra_data self) in
      (Ok tt, saved, table ++ [saved])
  else
    let others := List.filter (fun row => negb (N.eqb (uuid row) (uuid self)))
                    table in
    if existsb (fun row => String.eqb (name self) (name row)) others then
      (Raise (IntegrityError "duplicate key value violates unique constraint"),
       self, table)
    else
      (Ok tt, self,
       if existsb (fun row => N.eqb (uuid row) (uuid self)) table
       then map (fun row => if N.eqb (uuid row) (uuid self) then self
                            else row) table
       else table ++ [self]).

(** [Project(name=name)], not saved yet, with the draw [u] of [uuid4]. *)
Definition new (name : string) (u : N) : t :=
  mk true u 0 name "" (PDict []).

Section WithWorkspace.

(** [scancodeio.WORKSPACE_LOCATION], defined outside these sources. *)
Variable WORKSPACE_LOCATION : string.

Definition get_project_work_directory (project : t) : string :=
  WORKSPACE_LOCATION +:+ "/projects/" +:+ name project +:+ "-" +:+
  short_uuid project.

(** [Project.save]: the work directory is set up before the row is
    written; what [setup_work_directory] has made stays on disk when
    the write raises. The state is the project table and the disk. *)
Definition save (now : Z) (self : t)
    (st : list t * gmap FS.path FS.node)
  : res unit * t * (list t * gmap FS.path FS.node) :=
  let '(table, disk) := st in
  if String.eqb (work_directory self) "" then
    let self := set_work_directory (get_project_work_directory self) self in
    match setup_work_directory self disk with
    | (Ok tt, disk') =>
        let '(r, self', table') := Model_save now self table in
        (r, self', (table', disk'))
    | (Raise e, disk') => (Raise e, self, (table, disk'))
    end
  else
    let '(r, self', table') := Model_save now self table in
    (r, self', (table', disk)).

(** [Project.objects.create(name=name)]: a new instance, whose [uuid]
    is the draw [u] of [uuid4], saved at time [now]. *)
Definition create (name : string) (u : N) (now : Z)
    (st : list t * gmap FS.path FS.node)
  : res t * (list t * gmap FS.path FS.node) :=
  let '(r, self, st') := save now (new name u) st in
  match r with
  | Ok tt => (Ok self, st')
  | Raise e => (Raise e, st')
  end.

End WithWorkspace.

(** [get_next_run]: [self.runs] is the rows of the run table whose
    foreign key is this project; [earliest("created_date")] orders by
    creation date and takes the first row, raising [DoesNotExist],
    which is suppressed, when there is none. Among rows with the same
    date the database is free to choose; the first in table order is
    taken here. *)
Fixpoint earliest (rows : list Run.t) : option Run.t :=
  match rows with
  | [] => None
  | r :: more =>
      match earliest more with
      | Some r' =>
          if (Run.created_date r <=? Run.created_date r')%Z
          then Some r else Some r'
      | None => Some r
      end
  end.

Definition is_null {A} (o : option A) : bool :=
  match o with None => true | Some _ => false end.

Definition runs (self : t) (table : list Run.t) : list Run.t :=
  List.filter (fun r => N.eqb (Run.project r) (uuid self)) table.

Definition get_next_run (self : t) (table : list Run.t) : option Run.t :=
  earliest (List.filter (fun r => is_null (Run.task_id r)) (runs self table)).

Section WithPipelines.

(** [scanpipe.pipelines.get_pipeline_doc], the defaults that
    [AbstractTaskFieldsModel] gives the task fields of a new run ([task_id],
    [task_exitcode], [task_output]) and the verdict of the database on the
    columns of a new run (the length of [pipeline], the foreign key) are
    defined outside these sources. *)
Variable get_pipeline_doc : string → res string.
Variable task_defaults : option string * option Z * string.
Variable Run_check : Run.t → option exn.

(** [add_pipeline]: [Run.objects.create(...)] inserts a run with the draw
    [u] of [uuid4] as primary key, created at [now]; a row the database
    refuses, or a primary key that is in the run table already, raises.
    [Run] does not have the error-capturing [save]. *)
Definition add_pipeline (self : t) (pipeline : string) (u : N) (now : Z)
    (table : list Run.t) : res Run.t * list Run.t :=
  match get_pipeline_doc pipeline with
  | Raise e => (Raise e, table)
  | Ok description =>
      let run := Run.mk u (uuid self) pipeline now description
                   task_defaults.1.1 task_defaults.1.2 task_defaults.2 in
      match Run_check run with
      | Some e => (Raise e, table)
      | None =>
          if existsb (fun r => N.eqb (Run.uuid r) u) table then
            (Raise (IntegrityError
                      "duplicate key value violates unique constraint"), table)
          else (Ok run, table ++ [run])
      end
  end.

End WithPipelines.

End Project.

(** ** ProjectError and the error-capturing save *)

Module ProjectError.

(** The columns written by [SaveProjectErrorMixin.save]. [uuid] and
    [created_date] are filled in by their defaults ([uuid4],
    [auto_now_add]) and are left out. *)
Record t : Type := mk {
  project : N;
  model : string;
  details : list (string * pyval);
  message : string;
  traceback : string
}.

(** [ProjectError.objects.create(...)]. [check] is the verdict of the
    database on the row (its foreign key to the project table, the
    connection), which is not in these sources: a refused row raises and
    nothing is written, an accepted row is one more row. *)
Definition objects_create (check : t → option exn) (row : t)
    (table : list t) : res unit * list t :=
  match check row with
  | Some e => (Raise e, table)
  | None => (Ok tt, table ++ [row])
  end.

End ProjectError.

(** A model class that is related to a project: its name, [self.project]
    (the mandatory foreign key: the instance holds the project it was
    built with, and otherwise the row is fetched, which may raise),
    Django's [model_to_dict] (the value of every editable field of the
    class, which may have to be fetched as well), and the [save] the mixin
    finds behind itself in the method resolution order ([super().save]),
    which acts on the table [T] of the class and may change the instance;
    of the arguments passed through, [force_insert] is kept. *)
Class ProjectRelatedModel (E T : Type) : Type := {
  class_name : string;
  get_project : E → res N;
  model_to_dict : E → res (list (string * pyval));
  super_save : bool → E → T → res unit * E * T
}.

(** [f.value_from_object(instance)] for a plain field: the attribute when
    it was set, and otherwise what the constructor has put there, the
    default of the field. *)
Definition value_from_object (attrs : gmap string pyval)
    (field : string * pyval) : string * pyval :=
  (field.1, default field.2 (attrs !! field.1)).

Module SaveProjectErrorMixin.

(** ["".join(traceback.format_tb(e.__traceback__))]. *)
Definition format_traceback (e : exn) : string :=
  String.concat "" (exn_frames e).

(** [save]: the state is the table of the class and the error table.
    Nothing guards the [except] clause: when [self.project],
    [model_to_dict] or the insert of the error row raises there, in the
    order of the keyword arguments, that exception leaves [save].
    [ProjectError_check] is the verdict of the database on an error row. *)
Definition save {E T} `{ProjectRelatedModel E T}
    (ProjectError_check : ProjectError.t → option exn) (force_insert : bool)
    (self : E) (st : T * list ProjectError.t)
  : res unit * E * (T * list ProjectError.t) :=
  let '(table, errors) := st in
  match super_save force_insert self table with
  | (Ok tt, self', table') => (Ok tt, self', (table', errors))
  | (Raise e, self', table') =>
      match get_project self' with
      | Raise e' => (Raise e', self', (table', errors))
      | Ok project =>
          match model_to_dict self' with
          | Raise e' => (Raise e', self', (table', errors))
          | Ok details =>
              let '(r, errors') :=
                ProjectError.objects_create ProjectError_check
                  (ProjectError.mk project class_name details
                     (exn_message e) (format_traceback e))
                  errors in
              (r, self', (table', errors'))
          end
      end
  end.

End SaveProjectErrorMixin.

(** ** Rows with an automatic primary key *)

Module Rows.

Section Rows.

Context {R : Type}.
(** The primary key of a row, how it is set, and what the table's
    constraints say of a row against the other rows. *)
Variable pk : R → option Z.
Variable with_pk : Z → R → R.
Variable violation : R → list R → option exn.

Definition has_pk (i : Z) (row : R) : bool :=
  match pk row with
  | Some j => (i =? j)%Z
  | None => false
  end.

Definition next_pk (table : list R) : Z :=
  1 + fold_right (fun row m => match pk row with
                               | Some j => Z.max j m
                               | None => m
                               end) 0%Z table.

(** INSERT: a row without primary key gets the next one; a primary
    key that is already in the table is refused. *)
Definition insert (self : R) (table : list R) : res unit * R * list R :=
  match violation self table with
  | Some e => (Raise e, self, table)
  | None =>
      match pk self with
      | None =>
          let saved := with_pk (next_pk table) self in
          (Ok tt, saved, table ++ [saved])
      | Some i =>
          if existsb (has_pk i) table then
            (Raise (IntegrityError
                      "duplicate key value violates unique constraint"),
             self, table)
          else (Ok tt, self, table ++ [self])
      end
  end.

(** UPDATE of the row whose primary key is [i]. *)
Definition update (i : Z) (self : R) (table : list R)
  : res unit * R * list R :=
  match violation self
          (List.filter (fun row => negb (has_pk i row)) table) with
  | Some e => (Raise e, self, table)
  | None =>
      (Ok tt, self,
       map (fun row => if has_pk i row then self else row) table)
  end.

(** Django's [Model.save(force_insert=...)]: the row of the instance's
    primary key is updated when there is one and no insert is forced;
    otherwise the instance is inserted. *)
Definition Model_save (force_insert : bool) (self : R) (table : list R)
  : res unit * R * list R :=
  match pk self with
  | Some i =>
      if negb force_insert && existsb (has_pk i) table
      then update i self table
      else insert self table
  | None => insert self table
  end.

End Rows.

End Rows.

(** [name in names]. *)
Definition mem (name : string) (names : list string) : bool :=
  existsb (String.eqb name) names.

(** The integer primary key kept under ["id"] with the other attributes. *)
Definition attrs_pk (attrs : gmap string pyval) : option Z :=
  match attrs !! "id" with
  | Some (PInt i) => Some i
  | _ => None
  end.

(** ** CodebaseResource *)

Module CodebaseResource.

(** An instance: the project (a mandatory foreign key) and the other
    attributes by name. *)
Record t : Type := mk {
  project : N;
  attrs : gmap string pyval
}.

(** The fields of [ScanFieldsModelMixin]. *)
Definition scan_fields : list string :=
  ["copyrights"; "holders"; "authors"; "licenses"; "license_expressions";
   "emails"; "urls"].

(** The fields declared in the class body. *)
Definition own_fields : list string :=
  ["rootfs_path"; "status"; "type"; "extra_data"; "name"; "extension";
   "programming_language"; "mime_type"; "file_type"].

(** The editable fields that come from [ScanFieldsModelMixin] and from the
    class body, with the value of an instance on which they were not set:
    [default=list], [default=dict], and the empty text of a [CharField].
    The foreign key [project] is not editable. *)
Definition declared_defaults : list (string * pyval) :=
  map (fun f => (f, PList [])) scan_fields ++
  [("rootfs_path", PStr ""); ("status", PStr ""); ("type", PStr "");
   ("extra_data", PDict []); ("name", PStr ""); ("extension", PStr "");
   ("programming_language", PStr ""); ("mime_type", PStr "");
   ("file_type", PStr "")].

Definition with_attr (field_name : string) (value : pyval) (self : t) : t :=
  mk (project self) (<[field_name := value]> (attrs self)).

Definition pk (self : t) : option Z := attrs_pk (attrs self).

Definition path_of (self : t) : option string :=
  match attrs self !! "path" with
  | Some (PStr s) => Some s
  | _ => None
  end.

(** [l] without the slashes at its start. *)
Fixpoint lstrip_slash (l : list ascii) : list ascii :=
  match l with
  | c :: l' => if Ascii.eqb c "/"%char then lstrip_slash l' else l
  | [] => []
  end.

(** [s.strip("/")]: the slashes at both ends are dropped. *)
Definition strip_slash (s : string) : string :=
  String.string_of_list_ascii
    (rev (lstrip_slash (rev (lstrip_slash (String.list_ascii_of_string s))))).

(** [location]: [project] is the row [self.project] refers to and [path]
    the text of [self.path]. [location_path] is the path whose [str] is
    returned. *)
Definition location_path (project : Project.t) (path : string) : FS.path :=
  FS.joinpath (Project.codebase_path project) (FS.Path (strip_slash path)).

Definition location (project : Project.t) (path : string) : string :=
  FS.str_path (location_path project path).

(** [unique_together = (("project", "path"),)]. *)
Definition same_project_path (self row : t) : bool :=
  N.eqb (project self) (project row) &&
  match path_of self, path_of row with
  | Some a, Some b => String.eqb a b
  | _, _ => false
  end.

Section WithAbstractResource.

(** [AbstractResource] is declared outside these sources: the names of
    the fields the class gets from it (with the primary key), what the
    database says of their values when a row is written, and those of its
    fields that are editable, each with the value of an instance on which
    it was not set. [Project_fetch] is the verdict of the database on the
    query for a project row, made by [self.project] on an instance that
    does not hold its project (nothing, for an instance that does);
    [ProjectError_check] is its verdict on an error row. *)
Variable AbstractResource_fields : list string.
Variable AbstractResource_check : t → option exn.
Variable AbstractResource_editable : list (string * pyval).
Variable Project_fetch : N → option exn.
Variable ProjectError_check : ProjectError.t → option exn.

(** [model_fields()]: the names of [_meta.get_fields()], which lists
    the reverse relation [discovered_packages] and the foreign key
    [project] with the columns. Only membership is used. *)
Definition model_fields : list string :=
  "discovered_packages" :: "project" :: scan_fields ++
  AbstractResource_fields ++ own_fields.

Definition violation (self : t) (others : list t) : option exn :=
  match AbstractResource_check self with
  | Some e => Some e
  | None =>
      if existsb (same_project_path self) others
      then Some (IntegrityError
                   "duplicate key value violates unique constraint")
      else None
  end.

(** [model_to_dict(self)]: the class has no many-to-many field of its
    own ([discovered_packages] is the reverse side), so every value is
    read from the instance. The fields of [AbstractResource] come first. *)
#[local] Instance resource_model : ProjectRelatedModel t (list t) := {
  class_name := "CodebaseResource";
  get_project self :=
    match Project_fetch (project self) with
    | Some e => Raise e
    | None => Ok (project self)
    end;
  model_to_dict self :=
    Ok (map (value_from_object (attrs self))
          (AbstractResource_editable ++ declared_defaults));
  super_save :=
    Rows.Model_save pk (fun i => with_attr "id" (PInt i)) violation
}.

(** [setattr(self, field_name, value)] for a value of a scan mapping.
    Django's descriptor of the foreign key [project] accepts a Project
    instance or [None] and raises [ValueError] for anything else; the
    descriptor of the reverse relation [discovered_packages] refuses
    any assignment with [TypeError]. Every other name is a plain
    attribute. ([None] for [project], which the loop below never
    assigns, would unset a mandatory key and is left without effect.)
    The messages are abridged. *)
Definition setattr (self : t) (field_name : string) (value : pyval)
  : res t :=
  if String.eqb field_name "project" then
    match value with
    | PNone => Ok self
    | _ => Raise (ValueError
             "Cannot assign: CodebaseResource.project must be a Project instance.")
    end
  else if String.eqb field_name "discovered_packages" then
    Raise (TypeError
      "Direct assignment to the reverse side of a many-to-many set is prohibited.")
  else Ok (with_attr field_name value self).

(** The loop of [set_scan_results] over [scan_results.items()], in the
    order of the mapping; a raise leaves the assignments made so far. *)
Fixpoint set_scan_results_loop (self : t)
    (items : list (string * pyval)) : res unit * t :=
  match items with
  | [] => (Ok tt, self)
  | (field_name, value) :: more =>
      if truthy value && mem field_name model_fields then
        match setattr self field_name value with
        | Ok self' => set_scan_results_loop self' more
        | Raise e => (Raise e, self)
        end
      else set_scan_results_loop self more
  end.

(** [set_scan_results(scan_results, save)]; [scan_results] lists the
    items of the dict in its order. *)
Definition set_scan_results (self : t)
    (scan_results : list (string * pyval)) (save : bool)
    (st : list t * list ProjectError.t)
  : res unit * t * (list t * list ProjectError.t) :=
  match set_scan_results_loop self scan_results with
  | (Ok tt, self') =>
      if save then SaveProjectErrorMixin.save ProjectError_check false self' st
      else (Ok tt, self', st)
  | (Raise e, self') => (Raise e, self', st)
  end.

End WithAbstractResource.

End CodebaseResource.

(** ** DiscoveredPackage *)

Module DiscoveredPackage.

Record t : Type := mk {
  project : N;
  attrs : gmap string pyval
}.

Definition own_fields : list string :=
  ["codebase_resources"; "missing_resources"; "modified_resources";
   "keywords"; "source_packages"].

(** The editable plain fields of the class body, with the value of an
    instance on which they were not set ([default=list]). The foreign key
    [project] is not editable; the many-to-many field comes apart. *)
Definition declared_defaults : list (string * pyval) :=
  [("missing_resources", PList []); ("modified_resources", PList []);
   ("keywords", PList []); ("source_packages", PList [])].

Definition with_attr (field_name : string) (value : pyval) (self : t) : t :=
  mk (project self) (<[field_name := value]> (attrs self)).

Definition pk (self : t) : option Z := attrs_pk (attrs self).

(** [package_data.get(key)]. *)
Definition get (package_data : gmap string pyval) (key : string) : pyval :=
  default PNone (package_data !! key).

Section WithAbstractPackage.

(** [AbstractPackage] is declared outside these sources: its field
    names (with the primary key), the verdict of the database on a row,
    and those of its fields that are editable and not overridden in the
    class body, each with the value of an instance on which it was not
    set. [normalize_qualifiers q] is
    [packageurl.normalize_qualifiers(q, encode=True)], a function of
    the packageurl library. The rows of the many-to-many table are not
    kept here: [related_resources self] is what
    [list(self.codebase_resources.all())] gives for an instance with a
    primary key, a query that may raise. [ProjectError_check] is the
    verdict of the database on an error row. *)
Variable AbstractPackage_fields : list string.
Variable AbstractPackage_check : t → option exn.
Variable normalize_qualifiers : pyval → res pyval.
Variable AbstractPackage_editable : list (string * pyval).
Variable related_resources : t → res pyval.
Variable ProjectError_check : ProjectError.t → option exn.

Definition model_fields : list string :=
  "project" :: AbstractPackage_fields ++ own_fields.

(** [model_to_dict(self)]: the plain fields, those of [AbstractPackage]
    first, and then the many-to-many field [codebase_resources], whose
    value is the empty list for an instance without primary key and is
    fetched otherwise. The instances saved below are built by
    [objects.create] with their project, which they hold. *)
Definition package_to_dict (self : t) : res (list (string * pyval)) :=
  let plain := map (value_from_object (attrs self))
                 (AbstractPackage_editable ++ declared_defaults) in
  match pk self with
  | None => Ok (plain ++ [("codebase_resources", PList [])])
  | Some _ =>
      match related_resources self with
      | Ok related => Ok (plain ++ [("codebase_resources", related)])
      | Raise e => Raise e
      end
  end.

#[local] Instance package_model : ProjectRelatedModel t (list t) := {
  class_name := "DiscoveredPackage";
  get_project self := Ok (project self);
  model_to_dict := package_to_dict;
  super_save :=
    Rows.Model_save pk (fun i => with_attr "id" (PInt i))
      (fun self _ => AbstractPackage_check self)
}.

(** [cls.objects.create(project=project, **kwargs)]. A [project] entry
    among the keyword arguments is a second value for the same
    keyword, which Python refuses with [TypeError]; the many-to-many
    field [codebase_resources] cannot be set by the constructor
    ([TypeError]). Otherwise the instance is built and saved with
    [force_insert=True] by the error-capturing [save]; it is returned
    when that [save] returns. *)
Definition objects_create (project : N) (kwargs : gmap string pyval)
    (st : list t * list ProjectError.t)
  : res t * (list t * list ProjectError.t) :=
  if bool_decide (is_Some (kwargs !! "project")) then
    (Raise (TypeError "got multiple values for keyword argument 'project'"),
     st)
  else if bool_decide (is_Some (kwargs !! "codebase_resources")) then
    (Raise (TypeError
       "Direct assignment to the forward side of a many-to-many set is prohibited."),
     st)
  else
    match SaveProjectErrorMixin.save ProjectError_check true
            (mk project kwargs) st with
    | (Ok tt, self, st') => (Ok self, st')
    | (Raise e, _, st') => (Raise e, st')
    end.

Definition recognized_and_truthy (item : string * pyval) : Prop :=
  mem item.1 model_fields && truthy item.2 = true.

#[global] Instance recognized_and_truthy_dec (item : string * pyval)
  : Decision (recognized_and_truthy item).
Proof. unfold recognized_and_truthy. apply _. Defined.

(** The first statement of [create_from_data]: a truthy [qualifiers]
    entry is replaced, in the caller's mapping, by what
    [normalize_qualifiers] returns for it. *)
Definition normalize_entry (package_data : gmap string pyval)
  : res (gmap string pyval) :=
  let qualifiers := get package_data "qualifiers" in
  if truthy qualifiers then
    match normalize_qualifiers qualifiers with
    | Ok encoded => Ok (<["qualifiers" := encoded]> package_data)
    | Raise e => Raise e
    end
  else Ok package_data.

(** [create_from_data(project, package_data)]. The mapping is the
    caller's object: the outcome comes with the mapping as the call
    leaves it. *)
Definition create_from_data (project : N)
    (package_data : gmap string pyval)
    (st : list t * list ProjectError.t)
  : res t * gmap string pyval * (list t * list ProjectError.t) :=
  match normalize_entry package_data with
  | Raise e => (Raise e, package_data, st)
  | Ok package_data =>
      let cleaned_package_data :=
        filter recognized_and_truthy package_data in
      let '(r, st') := objects_create project cleaned_package_data st in
      (r, package_data, st')
  end.

End WithAbstractPackage.

End DiscoveredPackage.

(** ** Query sets *)

Module QuerySet.

Section QuerySet.

(** A query set is the list of the rows it selects, in its order; the
    rows have a [project] column and a [status] column. *)
Context {R : Type}.
Variable project_of : R → N.
Variable status_of : R → string.

(** [ProjectRelatedQuerySet.project]: [filter(project=project)]. *)
Definition project (p : Project.t) (self : list R) : list R :=
  List.filter (fun row => N.eqb (project_of row) (Project.uuid p)) self.

(** [exclude(status="")] and [filter(status=s)]. *)
Definition exclude_status (s : string) (self : list R) : list R :=
  List.filter (fun row => negb (String.eqb (status_of row) s)) self.
Definition filter_status (s : string) (self : list R) : list R :=
  List.filter (fun row => String.eqb (status_of row) s) self.

(** [CodebaseResourceQuerySet.status(status=None)]; the argument is
    [None] or a text. *)
Definition status (status : option string) (self : list R) : list R :=
  match status with
  | Some s =>
      if negb (String.eqb s "") then filter_status s self
      else exclude_status "" self
  | None => exclude_status "" self
  end.

(** [CodebaseResourceQuerySet.no_status]. *)
Definition no_status (self : list R) : list R := filter_status "" self.

End QuerySet.

End QuerySet.

(** [scan_results[key]] on the items of a dict: the first item of that
    key (the only one, as the keys of a dict are distinct). *)
Fixpoint item (key : string) (items : list (string * pyval)) : option pyval :=
  match items with
  | [] => None
  | (k, v) :: more => if String.eqb k key then Some v else item key more
  end.

(** [r] is a run of the project [self] that has no task id yet. *)
Definition queued_for (self : Project.t) (table : list Run.t) (r : Run.t)
  : Prop :=
  r ∈ table ∧ Run.project r = Project.uuid self ∧ Run.task_id r = None.

(** ** Sample data *)

Module Sample.

Definition newline : string := String "010"%char "".

Definition run_with_output (out : string) : Run.t :=
  Run.mk 1 1 "scanpipe/pipelines/docker.py" 0 "" None None out.

(** A task output that carries the token, and one that does not. *)
Definition output_with_token : string :=
  "Pipeline starting" +:+ newline +:+ "run-id 4821" +:+ newline +:+ "done".
Definition output_without_token : string := "Pipeline completed".

(** Runs of project 7 (and one of project 8) in a run table. *)
Definition queued (u : N) (proj : N) (date : Z) : Run.t :=
  Run.mk u proj "docker" date "" None None "".
Definition claimed (u : N) (proj : N) (date : Z) : Run.t :=
  Run.mk u proj "docker" date "" (Some "task-1") None "".
Definition run_table : list Run.t :=
  [claimed 1 7 10; queued 2 7 30; queued 3 8 5; queued 4 7 20].

(** A workspace location and two draws of [uuid4]. *)
Definition workspace : string := "/var/scancodeio".
Definition uuid_a : N := 0x1a2b3c4d5e6f40718293a4b5c6d7e8f9.
Definition uuid_b : N := 0x9f8e7d6c5b4a4938a7b6c5d4e3f20110.

(** The table and the disk after the first project [acme] is created on
    an empty table and an empty disk, and after a second creation with
    the same name. *)
Definition after_first : res Project.t * (list Project.t * gmap FS.path FS.node) :=
  Project.create workspace "acme" uuid_a 100 ([], ∅).
Definition after_second : res Project.t * (list Project.t * gmap FS.path FS.node) :=
  Project.create workspace "acme" uuid_b 200 (snd after_first).

Definition second_work_directory : FS.path :=
  ["/"; "var"; "scancodeio"; "projects"; "acme-9f8e7d6c"].

(** The first project as the table holds it. *)
Definition acme : Project.t :=
  Project.mk false uuid_a 100 "acme"
    "/var/scancodeio/projects/acme-1a2b3c4d" (PDict []).

(** The disk after the first creation with a file left in [tmp]; an
    operating system that removes whatever it is asked to, and one that
    does not remove that file. *)
Definition scan_file : FS.path :=
  ["/"; "var"; "scancodeio"; "projects"; "acme-1a2b3c4d"; "tmp"; "scan.json"].
Definition disk_with_scan_file : gmap FS.path FS.node :=
  <[scan_file := FS.File]> (snd (snd after_first)).
Definition all_removable : FS.path → bool := fun _ => true.
Definition scan_file_protected : FS.path → bool :=
  fun q => negb (bool_decide (q = scan_file)).

(** A resource of project 7 with a detected licence, and two licence
    values of a scan. The field names stand for those of
    [AbstractResource]; the database accepts every row. *)
Definition resource_fields : list string :=
  ["id"; "path"; "size"; "sha1"; "md5"].
Definition accept_resource : CodebaseResource.t → option exn :=
  fun _ => None.
Definition resource_editable : list (string * pyval) :=
  [("id", PNone); ("path", PStr ""); ("size", PNone); ("sha1", PStr "");
   ("md5", PStr "")].

(** A database that holds project 7 and no other project: a resource row
    or an error row that refers to another project violates its foreign
    key. [accept_error] is an error table that takes every row, and
    [project_held] stands for instances that hold their project, so that
    no query is made for it. *)
Definition foreign_key_violation : exn :=
  IntegrityError "insert or update on table violates foreign key constraint".
Definition resource_of_known_project (r : CodebaseResource.t) : option exn :=
  if N.eqb (CodebaseResource.project r) 7 then None
  else Some foreign_key_violation.
Definition error_of_known_project (row : ProjectError.t) : option exn :=
  if N.eqb (ProjectError.project row) 7 then None
  else Some foreign_key_violation.
Definition accept_error : ProjectError.t → option exn := fun _ => None.
Definition project_held : N → option exn := fun _ => None.
Definition project_of_known_project (p : N) : option exn :=
  if N.eqb p 7 then None
  else Some (mkExn "DoesNotExist" "Project matching query does not exist." []).
Definition gpl : pyval := PList [PDict [("key", PStr "gpl-2.0")]].
Definition mit : pyval := PList [PDict [("key", PStr "mit")]].
Definition resource : CodebaseResource.t :=
  CodebaseResource.mk 7
    (<["licenses" := gpl]> (<["path" := PStr "src/main.c"]> ∅)).
Definition stored_resource : CodebaseResource.t :=
  CodebaseResource.with_attr "id" (PInt 1) resource.

(** Package data as a scan gives it. The field names stand for those of
    [AbstractPackage]; [normalize] stands for [normalize_qualifiers] on
    the one mapping used here and refuses everything else. *)
Definition package_fields : list string :=
  ["id"; "type"; "namespace"; "name"; "version"; "qualifiers"; "subpath";
   "package_url"].
Definition accept_package : DiscoveredPackage.t → option exn :=
  fun _ => None.
Definition package_editable : list (string * pyval) :=
  [("id", PNone); ("type", PStr ""); ("namespace", PStr "");
   ("name", PStr ""); ("version", PStr ""); ("qualifiers", PStr "");
   ("subpath", PStr ""); ("package_url", PStr "")].
Definition no_related : DiscoveredPackage.t → res pyval :=
  fun _ => Ok (PList []).
Definition classifier_sources : pyval :=
  PDict [("classifier", PStr "SOURCES")].
Definition normalize (q : pyval) : res pyval :=
  match q with
  | PDict ((k, PStr v) :: nil) =>
      if String.eqb k "classifier" && String.eqb v "SOURCES"
      then Ok (PStr "classifier=SOURCES")
      else Raise (ValueError "Invalid qualifier.")
  | _ => Raise (ValueError "Invalid qualifier.")
  end.
Definition package_data : gmap string pyval :=
  <["qualifiers" := classifier_sources]>
    (<["name" := PStr "log4j"]>
       (<["version" := PStr ""]>
          (<["package_url" := PStr "pkg:maven/log4j"]>
             (<["datasource" := PInt 3]> ∅)))).

(** Package data whose qualifiers are a number; a package table that
    refuses its rows for a value that does not fit its column; and a
    database that cannot be reached, for package rows and for error rows. *)
Definition package_data_bad_qualifiers : gmap string pyval :=
  <["qualifiers" := PInt 5]> (<["name" := PStr "log4j"]> ∅).
Definition connection_lost : exn :=
  mkExn "OperationalError" "could not connect to server"
    ["  File models.py, line 246, in save"].
Definition unreachable_package : DiscoveredPackage.t → option exn :=
  fun _ => Some connection_lost.
Definition unreachable_error : ProjectError.t → option exn :=
  fun _ => Some connection_lost.
Definition unreachable_related : DiscoveredPackage.t → res pyval :=
  fun _ => Raise connection_lost.

(** The documentation of the one pipeline known here, and task fields
    that start empty. *)
Definition pipeline_doc (pipeline : string) : res string :=
  if String.eqb pipeline "scanpipe/pipelines/docker.py"
  then Ok "A pipeline to analyze a Docker image."
  else Raise (mkExn "ModuleNotFoundError" "No module named pipeline" []).
Definition task_defaults : option string * option Z * string :=
  (None, None, "").
Definition accept_run : Run.t → option exn := fun _ => None.

End Sample.

(** * Properties *)

(** ** Strings *)

#[local] Arguments String.append !_ _ / : simpl nomatch.

Lemma append_assoc (a b c : string) : (a +:+ b) +:+ c = a +:+ (b +:+ c).
Proof. induction a as [|x a IH]; simpl; [reflexivity | by f_equal]. Qed.

Lemma append_empty_r (a : string) : a +:+ "" = a.
Proof. induction a as [|x a IH]; simpl; [reflexivity | by f_equal]. Qed.

Lemma string_of_list_ascii_snoc (l : list ascii) (c : ascii) :
  String.string_of_list_ascii (l ++ [c])
  = String.string_of_list_ascii l +:+ String c "".
Proof. induction l as [|x l IH]; simpl; [reflexivity | by f_equal]. Qed.

Lemma digit_not_space (c : ascii) :
  Text.is_digit c = true → Text.is_space c = false.
Proof.
  unfold Text.is_digit, Text.is_space. generalize (Text.code c). intros n H.
  apply andb_true_iff in H as [H1 H2].
  apply Nat.leb_le in H1. apply Nat.leb_le in H2.
  repeat (apply orb_false_iff; split);
    try (apply andb_false_iff);
    rewrite ?Nat.leb_gt, ?Nat.eqb_neq; lia.
Qed.

Lemma strip_prefix_append (p s : string) :
  Text.strip_prefix p (p +:+ s) = Some s.
Proof.
  induction p as [|a p IH]; simpl; [reflexivity |].
  by rewrite Ascii.eqb_refl.
Qed.

(** A run of digits that is not followed by a digit is what the greedy
    [[0-9]*] takes. *)
Lemma digits_prefix_append (ds post : string) :
  Text.all_digits ds = true → Text.starts_with_digit post = false →
  Text.digits_prefix (ds +:+ post) = ds.
Proof.
  unfold Text.all_digits. induction ds as [|c ds IH]; simpl; intros Hd Hp.
  - destruct post as [|c post]; simpl in *; [reflexivity | by rewrite Hp].
  - apply andb_true_iff in Hd as [Hc Hd]. rewrite Hc. by rewrite IH.
Qed.

Lemma match_here_token (ds post : string) :
  ds ≠ "" → Text.all_digits ds = true → Text.starts_with_digit post = false →
  Text.match_here ("run-id " +:+ ds +:+ post) = Some ("run-id " +:+ ds).
Proof.
  intros Hne Hd Hp. unfold Text.match_here.
  rewrite strip_prefix_append, digits_prefix_append by done.
  by destruct ds.
Qed.

(** Where no match starts, [search] moves on. *)
Lemma search_skip (pre s : string) :
  (∀ a b, pre = a +:+ b → b ≠ "" → Text.match_here (b +:+ s) = None) →
  Text.search (pre +:+ s) = Text.search s.
Proof.
  induction pre as [|c pre IH]; intros H; [reflexivity |].
  assert (Hm : Text.match_here (String c (pre +:+ s)) = None)
    by (by apply (H "" (String c pre))).
  change (String c pre +:+ s) with (String c (pre +:+ s)).
  cbn [Text.search]. rewrite Hm.
  apply IH. intros a b -> Hb. by apply (H (String c a) b).
Qed.

Lemma split_from_digits (word : list ascii) (s : string) :
  Text.all_digits s = true →
  Text.split_from word s =
    match word, s with
    | [], EmptyString => []
    | _, _ => [String.string_of_list_ascii (rev word) +:+ s]
    end.
Proof.
  unfold Text.all_digits. revert word.
  induction s as [|c s IH]; simpl; intros word Hd.
  - destruct word; [reflexivity |]. by rewrite append_empty_r.
  - apply andb_true_iff in Hd as [Hc Hd].
    rewrite (digit_not_space c Hc), (IH _ Hd). simpl.
    rewrite string_of_list_ascii_snoc, append_assoc. simpl.
    by destruct word.
Qed.

Lemma split_token (ds : string) :
  ds ≠ "" → Text.all_digits ds = true →
  last (Text.split ("run-id " +:+ ds)) = Some ds.
Proof.
  intros Hne Hd. unfold Text.split. cbn.
  rewrite (split_from_digits [] ds Hd). by destruct ds.
Qed.

(** Every match is the token followed by a run of digits. *)
Lemma match_here_shape (s m : string) :
  Text.match_here s = Some m →
  ∃ ds, m = "run-id " +:+ ds ∧ ds ≠ "" ∧ Text.all_digits ds = true.
Proof.
  unfold Text.match_here. destruct (Text.strip_prefix "run-id " s) as [rest|];
    [|done].
  assert (Hall : Text.all_digits (Text.digits_prefix rest) = true).
  { unfold Text.all_digits. induction rest as [|c rest IH]; simpl; [done |].
    destruct (Text.is_digit c) eqn:Hc; simpl; [by rewrite Hc | done]. }
  destruct (Text.digits_prefix rest) as [|c ds]; [done |].
  intros [= <-]. by exists (String c ds).
Qed.

Lemma search_shape (s m : string) :
  Text.search s = Some m →
  ∃ ds, m = "run-id " +:+ ds ∧ ds ≠ "" ∧ Text.all_digits ds = true.
Proof.
  induction s as [|c s IH]; cbn [Text.search].
  - destruct (Text.match_here "") eqn:E; [|done].
    intros [= <-]. by eapply match_here_shape.
  - destruct (Text.match_here (String c s)) eqn:E; [|exact IH].
    intros [= <-]. by eapply match_here_shape.
Qed.

(** ** Run.get_run_id *)

(** With an empty task output nothing is returned. *)
Lemma get_run_id_empty_output (self : Run.t) :
  Run.task_output self = "" → Run.get_run_id self = Ok None.
Proof. intros H. unfold Run.get_run_id. by rewrite H. Qed.

(** Whenever the pattern matches, the digits of the leftmost match are
    returned, as a string. *)
Lemma get_run_id_match (self : Run.t) (m : string) :
  Text.search (Run.task_output self) = Some m →
  ∃ ds, m = "run-id " +:+ ds ∧ Text.all_digits ds = true ∧ ds ≠ "" ∧
        Run.get_run_id self = Ok (Some ds).
Proof.
  intros Hs. destruct (search_shape _ _ Hs) as (ds & -> & Hne & Hd).
  exists ds. repeat split; try done.
  unfold Run.get_run_id. rewrite Hs.
  destruct (Run.task_output self) eqn:Hout; [by destruct ds |].
  cbn [String.eqb negb]. by rewrite split_token.
Qed.

(** The digits that follow the first [run-id ] token are returned. *)
Lemma get_run_id_digits (self : Run.t) (pre ds post : string) :
  Run.task_output self = pre +:+ "run-id " +:+ ds +:+ post →
  ds ≠ "" → Text.all_digits ds = true → Text.starts_with_digit post = false →
  (∀ a b, pre = a +:+ b → b ≠ "" →
          Text.match_here (b +:+ "run-id " +:+ ds +:+ post) = None) →
  Run.get_run_id self = Ok (Some ds).
Proof.
  intros Hout Hne Hd Hp Hpre.
  assert (Hs : Text.search (Run.task_output self) = Some ("run-id " +:+ ds)).
  { rewrite Hout, search_skip by done.
    destruct ds as [|c ds]; [done |].
    pose proof (match_here_token (String c ds) post Hne Hd Hp) as Hm.
    cbn [Text.search]. simpl in Hm |- *. by rewrite Hm. }
  destruct (get_run_id_match self _ Hs) as (ds' & Heq & _ & _ & ->).
  simpl in Heq. by injection Heq as ->.
Qed.

(** C1 (the code departs from it). On a task output that is not empty
    and does not hold the pattern, [get_run_id] does not return nothing:
    [search] gives [None], [.group()] is called on it, and the method
    raises [AttributeError]. *)
Theorem get_run_id_without_match_raises (self : Run.t) :
  Run.task_output self ≠ "" → Text.search (Run.task_output self) = None →
  Run.get_run_id self
  = Raise (AttributeError "'NoneType' object has no attribute 'group'").
Proof.
  intros Hne Hs. unfold Run.get_run_id. rewrite Hs.
  by destruct (Run.task_output self).
Qed.

(** So it is on the output ["Pipeline completed"]. *)
Lemma get_run_id_without_match_raises_witness :
  Run.get_run_id (Sample.run_with_output Sample.output_without_token)
  = Raise (AttributeError "'NoneType' object has no attribute 'group'").
Proof.
  apply get_run_id_without_match_raises.
  - discriminate.
  - vm_compute; reflexivity.
Defined.

(** The example of the specification: the digits after the token. *)
Example get_run_id_4821 :
  Run.get_run_id (Sample.run_with_output Sample.output_with_token)
  = Ok (Some "4821").
Proof. reflexivity. Qed.

(** ** Project.get_next_run *)

Lemma earliest_None (rows : list Run.t) :
  Project.earliest rows = None → rows = [].
Proof.
  destruct rows as [|r rows]; [done |]. simpl.
  destruct (Project.earliest rows); [|done].
  by destruct (Run.created_date r <=? Run.created_date t)%Z.
Qed.

Lemma earliest_Some (rows : list Run.t) (r : Run.t) :
  Project.earliest rows = Some r →
  r ∈ rows ∧
  ∀ r', r' ∈ rows → (Run.created_date r <= Run.created_date r')%Z.
Proof.
  revert r. induction rows as [|x rows IH]; [done |]. simpl. intros r.
  destruct (Project.earliest rows) as [m|] eqn:Em.
  - destruct (IH m eq_refl) as [Hin Hmin].
    destruct (Z.leb_spec (Run.created_date x) (Run.created_date m));
      intros [= <-];
      (split; [apply elem_of_cons; by (left + right) |]);
      intros r' [->|Hr']%elem_of_cons; try lia.
    + specialize (Hmin r' Hr'). lia.
    + by apply Hmin.
  - intros [= <-]. apply earliest_None in Em as ->.
    split; [apply elem_of_cons; by left |].
    intros r' [->|Hr']%elem_of_cons; [lia |].
    by apply elem_of_nil in Hr'.
Qed.

Lemma queued_for_filter (self : Project.t) (table : list Run.t) (r : Run.t) :
  r ∈ List.filter (fun r => Project.is_null (Run.task_id r))
        (Project.runs self table)
  ↔ queued_for self table r.
Proof.
  unfold queued_for, Project.runs.
  rewrite !list_elem_of_In, !filter_In, <- !list_elem_of_In, N.eqb_eq.
  unfold Project.is_null. destruct (Run.task_id r); intuition congruence.
Qed.

(** C5. [get_next_run] returns a run of the project that has no task id
    and whose creation date is the least among such runs, and it returns
    nothing exactly when the project has no run without task id; of two
    such runs created at different times the later one is not returned. *)
Theorem get_next_run_earliest (self : Project.t) (table : list Run.t) :
  match Project.get_next_run self table with
  | Some r =>
      queued_for self table r ∧
      (∀ r', queued_for self table r' →
             (Run.created_date r <= Run.created_date r')%Z) ∧
      (∀ r1 r2, queued_for self table r1 → queued_for self table r2 →
                (Run.created_date r1 < Run.created_date r2)%Z → r ≠ r2)
  | None => ∀ r', ¬ queued_for self table r'
  end.
Proof.
  unfold Project.get_next_run.
  destruct (Project.earliest _) as [r|] eqn:E.
  - apply earliest_Some in E as [Hin Hmin].
    assert (Hle : ∀ r', queued_for self table r' →
                        (Run.created_date r <= Run.created_date r')%Z).
    { intros r' Hr'. by apply Hmin, queued_for_filter. }
    split; [by apply queued_for_filter |]. split; [exact Hle |].
    intros r1 r2 H1 H2 Hlt ->. specialize (Hle r1 H1). lia.
  - apply earliest_None in E. intros r' Hr'%queued_for_filter.
    rewrite E in Hr'. by apply elem_of_nil in Hr'.
Qed.

(** Two queued runs of project 7, created at 30 and at 20, next to a
    claimed run and a run of another project: the one created at 20. *)
Example get_next_run_sample :
  Project.get_next_run (Project.mk false 7 0 "acme" "" PNone) Sample.run_table
  = Some (Sample.queued 4 7 20).
Proof. reflexivity. Qed.

(** ** SaveProjectErrorMixin.save *)

(** C4, as the code has it. When the save behind the mixin raises, the
    project and the fields of the instance can be read and the database
    accepts the error row, the mixin's [save] returns normally, and the
    error table has exactly one more row: the project of the instance, the
    name of its class, its fields as they are at that point, the message
    of the exception and its formatted traceback. The table of the class
    is as the failed save left it. *)
Theorem save_records_project_error {E T} `{ProjectRelatedModel E T}
    (ProjectError_check : ProjectError.t → option exn)
    (force_insert : bool) (self : E) (table : T)
    (errors : list ProjectError.t) (e : exn) (project : N)
    (details : list (string * pyval)) :
  let behind := super_save force_insert self table in
  let row := ProjectError.mk project class_name details
               (exn_message e) (String.concat "" (exn_frames e)) in
  behind.1.1 = Raise e →
  get_project behind.1.2 = Ok project →
  model_to_dict behind.1.2 = Ok details →
  ProjectError_check row = None →
  SaveProjectErrorMixin.save ProjectError_check force_insert self
    (table, errors)
  = (Ok tt, behind.1.2, (behind.2, errors ++ [row])).
Proof.
  intros behind row. subst behind row. unfold SaveProjectErrorMixin.save.
  destruct (super_save force_insert self table) as [[r self'] table'].
  cbn [fst snd]. intros -> -> -> Hrow.
  unfold ProjectError.objects_create, SaveProjectErrorMixin.format_traceback.
  by rewrite Hrow.
Qed.

(** C4 as stated does not hold for every exception. The error row is
    written to the same database, in the [except] clause, with nothing
    around it: a resource of project 9, which the database does not hold,
    is refused for its foreign key, the error row for project 9 is refused
    for the same reason, and that second exception leaves [save]; no error
    row is written. *)
Lemma save_error_row_refused :
  let model := CodebaseResource.resource_model
                 Sample.resource_of_known_project Sample.resource_editable
                 Sample.project_held in
  let orphan := CodebaseResource.mk 9 (<["path" := PStr "src/main.c"]> ∅) in
  let out := SaveProjectErrorMixin.save Sample.error_of_known_project true
               orphan ([], []) in
  (super_save true orphan []).1.1 = Raise Sample.foreign_key_violation ∧
  out.1.1 = Raise Sample.foreign_key_violation ∧ out.2 = ([], []).
Proof. repeat split; vm_compute; reflexivity. Qed.

(** The same resource when it does not hold its project: [self.project]
    asks the database for the row of project 9 and raises, before the
    error row is built. *)
Example save_project_not_fetched :
  let model := CodebaseResource.resource_model
                 Sample.resource_of_known_project Sample.resource_editable
                 Sample.project_of_known_project in
  let orphan := CodebaseResource.mk 9 (<["path" := PStr "src/main.c"]> ∅) in
  let out := SaveProjectErrorMixin.save Sample.accept_error true
               orphan ([], []) in
  out.1.1
  = Raise (mkExn "DoesNotExist" "Project matching query does not exist." [])
  ∧ out.2 = ([], []).
Proof. split; vm_compute; reflexivity. Qed.

(** A second resource of the same project and path is refused by the
    table; the refusal ends up in the error table, with the twenty-one
    editable fields of the instance. *)
Lemma save_records_project_error_witness :
  let model := CodebaseResource.resource_model Sample.accept_resource
                 Sample.resource_editable Sample.project_held in
  let details :=
    map (value_from_object (CodebaseResource.attrs Sample.resource))
      (Sample.resource_editable ++ CodebaseResource.declared_defaults) in
  SaveProjectErrorMixin.save Sample.error_of_known_project true
    Sample.resource ([Sample.stored_resource], [])
  = (Ok tt, Sample.resource,
     ([Sample.stored_resource],
      [] ++ [ProjectError.mk 7 "CodebaseResource" details
               "duplicate key value violates unique constraint"
               (String.concat "" [])]))
  ∧ length details = 21%nat
  ∧ item "licenses" details = Some Sample.gpl
  ∧ item "status" details = Some (PStr "").
Proof.
  intros model details. split; [|repeat split; vm_compute; reflexivity].
  refine (save_records_project_error Sample.error_of_known_project true
            Sample.resource [Sample.stored_resource] []
            (IntegrityError "duplicate key value violates unique constraint")
            7%N details _ _ _ _).
  - vm_compute; reflexivity.
  - reflexivity.
  - reflexivity.
  - reflexivity.
Defined.

(** When it does not raise, no error row is written. *)
Lemma save_without_error {E T} `{ProjectRelatedModel E T}
    (ProjectError_check : ProjectError.t → option exn)
    (force_insert : bool) (self self' : E) (table table' : T)
    (errors : list ProjectError.t) :
  super_save force_insert self table = (Ok tt, self', table') →
  SaveProjectErrorMixin.save ProjectError_check force_insert self
    (table, errors)
  = (Ok tt, self', (table', errors)).
Proof. intros Hs. unfold SaveProjectErrorMixin.save. by rewrite Hs. Qed.

(** ** The disk *)

Lemma entry_insert_eq (fs : gmap FS.path FS.node) (p : FS.path) :
  FS.entry (<[p := FS.Dir]> fs) p = Some FS.Dir.
Proof.
  unfold FS.entry. destruct (FS.is_root p); [done |]. apply lookup_insert_eq.
Qed.

Lemma entry_insert_ne (fs : gmap FS.path FS.node) (p q : FS.path) (n : FS.node) :
  p ≠ q → FS.entry (<[p := n]> fs) q = FS.entry fs q.
Proof.
  intros Hne. unfold FS.entry. destruct (FS.is_root q); [done |].
  by apply lookup_insert_ne.
Qed.

(** [walk] only reads the paths on the way. *)
Lemma walk_ext (fs fs' : gmap FS.path FS.node) (seen : FS.path)
    (rest : list string) :
  (∀ i, i < length rest →
        FS.entry fs (seen ++ take i rest) = FS.entry fs' (seen ++ take i rest)) →
  FS.walk fs seen rest = FS.walk fs' seen rest.
Proof.
  revert seen. induction rest as [|c rest IH]; intros seen Hext; [done |].
  simpl. pose proof (Hext 0 ltac:(simpl; lia)) as H0.
  simpl in H0. rewrite app_nil_r in H0. rewrite <- H0.
  destruct (FS.entry fs seen) as [[]|]; try done.
  apply IH. intros i Hi. specialize (Hext (S i) ltac:(simpl; lia)).
  simpl in Hext. by rewrite <- !app_assoc.
Qed.


(** A successful walk passes through directories only. *)
Lemma walk_None_entry (fs : gmap FS.path FS.node) (seen : FS.path)
    (rest : list string) (i : nat) :
  FS.walk fs seen rest = None → i < length rest →
  FS.entry fs (seen ++ take i rest) = Some FS.Dir.
Proof.
  revert seen i. induction rest as [|c rest IH]; intros seen i Hw Hi;
    [simpl in Hi; lia |].
  simpl in Hw. destruct (FS.entry fs seen) as [[]|] eqn:Es; try done.
  destruct i as [|i]; simpl.
  - by rewrite app_nil_r.
  - replace (seen ++ c :: take i rest) with ((seen ++ [c]) ++ take i rest)
      by (by rewrite <- app_assoc).
    apply IH; [done | simpl in Hi; lia].
Qed.

Lemma walk_insert (fs : gmap FS.path FS.node) (p seen : FS.path)
    (rest : list string) :
  FS.walk fs seen rest = None → FS.entry fs p = None →
  FS.walk (<[p := FS.Dir]> fs) seen rest = None.
Proof.
  intros Hw Hp. rewrite <- Hw. symmetry. apply walk_ext. intros i Hi.
  pose proof (walk_None_entry fs seen rest i Hw Hi) as Hd.
  symmetry. apply entry_insert_ne. intros ->. congruence.
Qed.

Lemma stat_Some (fs : gmap FS.path FS.node) (p : FS.path) (n : FS.node) :
  FS.stat fs p = Some n ↔ FS.walk fs [] p = None ∧ FS.entry fs p = Some n.
Proof. unfold FS.stat. destruct (FS.walk fs [] p); intuition congruence. Qed.

Lemma stat_insert_preserved (fs : gmap FS.path FS.node) (p q : FS.path)
    (n : FS.node) :
  FS.stat fs q = Some n → FS.entry fs p = None →
  FS.stat (<[p := FS.Dir]> fs) q = Some n.
Proof.
  rewrite !stat_Some. intros [Hw He] Hp. split; [by apply walk_insert |].
  rewrite entry_insert_ne; [done |]. intros ->. congruence.
Qed.

Lemma stat_insert_new (fs : gmap FS.path FS.node) (p : FS.path) :
  FS.walk fs [] p = None → FS.entry fs p = None →
  FS.stat (<[p := FS.Dir]> fs) p = Some FS.Dir.
Proof.
  intros Hw Hp. apply stat_Some.
  split; [by apply walk_insert | apply entry_insert_eq].
Qed.

(** [os.mkdir] either adds the directory or leaves the disk as it is. *)
Lemma os_mkdir_inv (fs fs' : gmap FS.path FS.node) (p : FS.path)
    (r : res unit) :
  FS.os_mkdir fs p = (r, fs') →
  (r = Ok tt ∧ fs' = <[p := FS.Dir]> fs ∧ FS.walk fs [] p = None ∧
   FS.entry fs p = None)
  ∨ (∃ e, r = Raise e ∧ fs' = fs).
Proof.
  unfold FS.os_mkdir. destruct (FS.walk fs [] p) eqn:Hw.
  - intros [= <- <-]. right. eauto.
  - destruct (FS.entry fs p) eqn:He; intros [= <- <-]; [right; eauto |].
    by left.
Qed.

Lemma os_mkdir_preserves (fs fs' : gmap FS.path FS.node) (p q : FS.path)
    (r : res unit) (n : FS.node) :
  FS.os_mkdir fs p = (r, fs') → FS.stat fs q = Some n → FS.stat fs' q = Some n.
Proof.
  intros [(-> & -> & Hw & He)|(e & -> & ->)]%os_mkdir_inv Hq; [|done].
  by apply stat_insert_preserved.
Qed.

Lemma os_mkdir_Ok (fs fs' : gmap FS.path FS.node) (p : FS.path) :
  FS.os_mkdir fs p = (Ok tt, fs') → FS.stat fs' p = Some FS.Dir.
Proof.
  intros [(_ & -> & Hw & He)|(e & ? & _)]%os_mkdir_inv; [|done].
  by apply stat_insert_new.
Qed.

Lemma is_dir_stat (fs : gmap FS.path FS.node) (p : FS.path) :
  FS.is_dir fs p = true ↔ FS.stat fs p = Some FS.Dir.
Proof.
  unfold FS.is_dir. destruct (FS.stat fs p) as [[]|]; intuition congruence.
Qed.

Lemma mkdir_preserves (b : bool) (fs fs' : gmap FS.path FS.node)
    (p q : FS.path) (r : res unit) (n : FS.node) :
  FS.mkdir b fs p = (r, fs') → FS.stat fs q = Some n → FS.stat fs' q = Some n.
Proof.
  unfold FS.mkdir. destruct (FS.os_mkdir fs p) as [r0 fs0] eqn:Hos.
  intros Hm Hq. pose proof (os_mkdir_preserves _ _ _ _ _ _ Hos Hq) as Hq0.
  destruct r0 as [[]|e]; [by injection Hm as <- <- |].
  destruct (FS.is_ENOENT e); [by injection Hm as <- <- |].
  destruct (b && FS.is_dir fs0 p); by injection Hm as <- <-.
Qed.

Lemma mkdir_Ok (b : bool) (fs fs' : gmap FS.path FS.node) (p : FS.path) :
  FS.mkdir b fs p = (Ok tt, fs') → FS.stat fs' p = Some FS.Dir.
Proof.
  unfold FS.mkdir. destruct (FS.os_mkdir fs p) as [r0 fs0] eqn:Hos.
  destruct r0 as [[]|e].
  - intros [= <-]. by eapply os_mkdir_Ok.
  - destruct (FS.is_ENOENT e); [done |].
    destruct (b && FS.is_dir fs0 p) eqn:Hb; [|done].
    intros [= <-]. apply andb_true_iff in Hb as [_ Hb]. by apply is_dir_stat.
Qed.

Lemma mkdir_parents_rev_preserves (fs fs' : gmap FS.path FS.node)
    (rp : list string) (q : FS.path) (r : res unit) (n : FS.node) :
  FS.mkdir_parents_rev fs rp = (r, fs') → FS.stat fs q = Some n →
  FS.stat fs' q = Some n.
Proof.
  revert fs fs' r. induction rp as [|c rp IH]; intros fs fs' r; simpl.
  - destruct (FS.os_mkdir fs []) as [r0 fs0] eqn:Hos. intros Hm Hq.
    pose proof (os_mkdir_preserves _ _ _ _ _ _ Hos Hq) as Hq0.
    destruct r0 as [[]|e]; [by injection Hm as <- <- |].
    destruct (FS.is_ENOENT e); [by injection Hm as <- <- |].
    destruct (FS.is_dir fs0 []); by injection Hm as <- <-.
  - destruct (FS.os_mkdir fs (rev rp ++ [c])) as [r0 fs0] eqn:Hos. intros Hm Hq.
    pose proof (os_mkdir_preserves _ _ _ _ _ _ Hos Hq) as Hq0.
    destruct r0 as [[]|e]; [by injection Hm as <- <- |].
    destruct (FS.is_ENOENT e).
    + destruct (FS.mkdir_parents_rev fs0 rp) as [r1 fs1] eqn:Hrec.
      pose proof (IH _ _ _ Hrec Hq0) as Hq1.
      destruct r1 as [[]|e1]; [|by injection Hm as <- <-].
      by eapply mkdir_preserves.
    + destruct (FS.is_dir fs0 (rev rp ++ [c])); by injection Hm as <- <-.
Qed.

Lemma mkdir_parents_rev_Ok (fs fs' : gmap FS.path FS.node) (rp : list string) :
  FS.mkdir_parents_rev fs rp = (Ok tt, fs') →
  FS.stat fs' (rev rp) = Some FS.Dir.
Proof.
  destruct rp as [|c rp]; simpl.
  - intros _. reflexivity.
  - destruct (FS.os_mkdir fs (rev rp ++ [c])) as [r0 fs0] eqn:Hos.
    destruct r0 as [[]|e]; [intros [= <-]; by apply (os_mkdir_Ok fs) |].
    destruct (FS.is_ENOENT e).
    + destruct (FS.mkdir_parents_rev fs0 rp) as [[[]|e1] fs1]; [|done].
      intros Hm. by apply (mkdir_Ok true fs1).
    + destruct (FS.is_dir fs0 (rev rp ++ [c])) eqn:Hd; [|done].
      intros [= <-]. by apply is_dir_stat.
Qed.

Lemma mkdir_parents_preserves (fs fs' : gmap FS.path FS.node)
    (p q : FS.path) (r : res unit) (n : FS.node) :
  FS.mkdir_parents fs p = (r, fs') → FS.stat fs q = Some n →
  FS.stat fs' q = Some n.
Proof. apply mkdir_parents_rev_preserves. Qed.

Lemma mkdir_parents_Ok (fs fs' : gmap FS.path FS.node) (p : FS.path) :
  FS.mkdir_parents fs p = (Ok tt, fs') → FS.stat fs' p = Some FS.Dir.
Proof.
  intros H%mkdir_parents_rev_Ok. by rewrite rev_involutive in H.
Qed.

(** ** Project.save and the work directory *)

Lemma setup_loop_preserves (wd : string) (subs : list string)
    (disk disk' : gmap FS.path FS.node) (r : res unit) (q : FS.path)
    (n : FS.node) :
  Project.setup_loop wd subs disk = (r, disk') →
  FS.stat disk q = Some n → FS.stat disk' q = Some n.
Proof.
  revert disk. induction subs as [|sub subs IH]; intros disk; simpl.
  - by intros [= <- <-].
  - destruct (FS.mkdir_parents disk _) as [r0 disk0] eqn:Hm. intros Hl Hq.
    pose proof (mkdir_parents_preserves _ _ _ _ _ _ Hm Hq) as Hq0.
    destruct r0 as [[]|e]; [by eapply IH | by injection Hl as <- <-].
Qed.

Lemma setup_loop_Ok (wd : string) (subs : list string)
    (disk disk' : gmap FS.path FS.node) (sub : string) :
  Project.setup_loop wd subs disk = (Ok tt, disk') → sub ∈ subs →
  FS.stat disk' (Project.subdirectory_path wd sub) = Some FS.Dir.
Proof.
  revert disk. induction subs as [|x subs IH]; intros disk; simpl.
  - intros _ Hin. by apply elem_of_nil in Hin.
  - destruct (FS.mkdir_parents disk _) as [r0 disk0] eqn:Hm.
    destruct r0 as [[]|e]; [|done]. intros Hl [->|Hin]%elem_of_cons.
    + eapply setup_loop_preserves; [exact Hl |]. by eapply mkdir_parents_Ok.
    + by eapply IH.
Qed.

(** What a successful creation leaves in the table. *)
Lemma create_Ok_inv (WORKSPACE_LOCATION name : string) (u : N) (now : Z)
    (st st1 : list Project.t * gmap FS.path FS.node) (p : Project.t) :
  Project.create WORKSPACE_LOCATION name u now st = (Ok p, st1) →
  st1.1 = st.1 ++ [p] ∧ Project.name p = name.
Proof.
  destruct st as [table disk]. unfold Project.create, Project.save. simpl.
  destruct (Project.setup_work_directory _ disk) as [[[]|e] disk'];
    [|by intros [= ]].
  unfold Project.Model_save. simpl.
  destruct (existsb _ table); intros [= <- <-]; done.
Qed.

(** When the set-up of the second work directory itself fails, that error
    is the one raised; the table is untouched as well. *)
Lemma create_again_setup_fails (WORKSPACE_LOCATION name : string)
    (u2 : N) (now2 : Z) (st1 : list Project.t * gmap FS.path FS.node)
    (disk2 : gmap FS.path FS.node) (e : exn) :
  Project.setup_loop
    (Project.get_project_work_directory WORKSPACE_LOCATION (Project.new name u2))
    Project.WORK_DIRECTORIES st1.2 = (Raise e, disk2) →
  Project.create WORKSPACE_LOCATION name u2 now2 st1 = (Raise e, (st1.1, disk2)).
Proof.
  intros H2. destruct st1 as [table1 disk1]. simpl in *.
  unfold Project.create, Project.save. simpl.
  unfold Project.setup_work_directory. simpl. by rewrite H2.
Qed.

(** When the set-up succeeds on a table that holds the name, the write of
    the row is refused. *)
Lemma create_again_refused (WORKSPACE_LOCATION name : string)
    (u2 : N) (now2 : Z) (st1 : list Project.t * gmap FS.path FS.node)
    (disk2 : gmap FS.path FS.node) (p1 : Project.t) :
  p1 ∈ st1.1 → Project.name p1 = name →
  Project.setup_loop
    (Project.get_project_work_directory WORKSPACE_LOCATION (Project.new name u2))
    Project.WORK_DIRECTORIES st1.2 = (Ok tt, disk2) →
  Project.create WORKSPACE_LOCATION name u2 now2 st1
  = (Raise (IntegrityError "duplicate key value violates unique constraint"),
     (st1.1, disk2)).
Proof.
  intros Hin Hn H2. destruct st1 as [table1 disk1]. simpl in *.
  unfold Project.create, Project.save. simpl.
  unfold Project.setup_work_directory. simpl. rewrite H2.
  unfold Project.Model_save. simpl.
  replace (existsb _ table1) with true; [done |].
  symmetry. apply existsb_exists. exists p1. split.
  - by apply list_elem_of_In.
  - unfold Project.conflicts. simpl. rewrite Hn, String.eqb_refl.
    apply orb_true_r.
Qed.

(** C2, as the code has it. Once a project of some name is created,
    creating another one with that name never succeeds and leaves the
    project table as it was. [save] sets up the work directory of the
    second instance, which is named after the name and the second id,
    before it writes the row, and the disk is left as that set-up leaves
    it: when the set-up fails, its error is the one raised; when it
    succeeds, the write is refused with [IntegrityError] and the four
    subdirectories of the second work directory are on disk after the
    failed call. *)
Theorem create_again_same_name (WORKSPACE_LOCATION name : string)
    (u1 u2 : N) (now1 now2 : Z)
    (st : list Project.t * gmap FS.path FS.node) (p1 : Project.t) :
  let first := Project.create WORKSPACE_LOCATION name u1 now1 st in
  let wd2 := Project.get_project_work_directory WORKSPACE_LOCATION
               (Project.new name u2) in
  let setup2 := Project.setup_loop wd2 Project.WORK_DIRECTORIES first.2.2 in
  let second := Project.create WORKSPACE_LOCATION name u2 now2 first.2 in
  first.1 = Ok p1 →
  second.2 = (first.2.1, setup2.2) ∧
  match setup2.1 with
  | Ok _ =>
      second.1
      = Raise (IntegrityError "duplicate key value violates unique constraint")
      ∧ ∀ sub, sub ∈ Project.WORK_DIRECTORIES →
               FS.is_dir second.2.2 (Project.subdirectory_path wd2 sub) = true
  | Raise e => second.1 = Raise e
  end.
Proof.
  intros first wd2 setup2 second. subst second setup2 first.
  destruct (Project.create _ name u1 now1 st) as [r1 st1] eqn:Hfirst.
  cbn [fst snd]. intros ->.
  apply create_Ok_inv in Hfirst as [Ht Hn].
  destruct (Project.setup_loop wd2 Project.WORK_DIRECTORIES st1.2)
    as [[[]|e] disk2] eqn:Hsetup; cbn [fst snd].
  - rewrite (create_again_refused WORKSPACE_LOCATION name u2 now2 st1 disk2 p1);
      [|rewrite Ht; apply elem_of_app; right; by apply list_elem_of_In; left
       |done |done].
    cbn [fst snd]. split; [done |]. split; [done |].
    intros sub Hsub. apply is_dir_stat. by eapply setup_loop_Ok.
  - by rewrite (create_again_setup_fails WORKSPACE_LOCATION name u2 now2 st1
                  disk2 e Hsetup).
Qed.

(** C2 as stated does not hold: the second creation of [acme] fails, and
    yet its work directory [acme-9f8e7d6c], which was not there before the
    call, is on disk after it. *)
Lemma create_again_leaves_directory :
  Sample.after_first.1 = Ok Sample.acme ∧
  Sample.after_second.1
  = Raise (IntegrityError "duplicate key value violates unique constraint") ∧
  FS.stat Sample.after_first.2.2 Sample.second_work_directory = None ∧
  FS.stat Sample.after_second.2.2 Sample.second_work_directory = Some FS.Dir ∧
  Sample.after_second.2.2 ≠ Sample.after_first.2.2.
Proof.
  split; [vm_compute; reflexivity |].
  split; [vm_compute; reflexivity |].
  split; [vm_compute; reflexivity |].
  split; [vm_compute; reflexivity |].
  intros H.
  apply (f_equal (fun d => FS.stat d Sample.second_work_directory)) in H.
  vm_compute in H. discriminate H.
Qed.

(** A regular file where the second work directory is to be made: the
    first creation succeeds, the second raises what the set-up raises. *)
Example create_again_over_a_file :
  let disk := <[Sample.second_work_directory := FS.File]>
                (<[["/"; "var"; "scancodeio"; "projects"] := FS.Dir]>
                   (<[["/"; "var"; "scancodeio"] := FS.Dir]>
                      (<[["/"; "var"] := FS.Dir]> ∅))) in
  let first := Project.create Sample.workspace "acme" Sample.uuid_a 100
                 ([], disk) in
  first.1 = Ok Sample.acme ∧
  (Project.create Sample.workspace "acme" Sample.uuid_b 200 first.2).1
  = Raise (NotADirectoryError "").
Proof. split; vm_compute; reflexivity. Qed.

(** The theorem at the two creations of [acme] in the samples. *)
Lemma create_again_same_name_witness :
  let first := Project.create Sample.workspace "acme" Sample.uuid_a 100
                 ([], ∅) in
  let second := Project.create Sample.workspace "acme" Sample.uuid_b 200
                  first.2 in
  second.2.1 = first.2.1 ∧
  second.1
  = Raise (IntegrityError "duplicate key value violates unique constraint") ∧
  FS.is_dir second.2.2
    (Project.subdirectory_path
       (Project.get_project_work_directory Sample.workspace
          (Project.new "acme" Sample.uuid_b)) "tmp") = true.
Proof.
  intros first second.
  pose proof (create_again_same_name Sample.workspace "acme" Sample.uuid_a
                Sample.uuid_b 100 200 ([], ∅) Sample.acme) as Hthm.
  cbv zeta in Hthm. fold first in Hthm. fold second in Hthm.
  assert (Hfirst : first.1 = Ok Sample.acme) by (vm_compute; reflexivity).
  destruct (Hthm Hfirst) as [Hst Hcase].
  assert (Hsetup : (Project.setup_loop
                      (Project.get_project_work_directory Sample.workspace
                         (Project.new "acme" Sample.uuid_b))
                      Project.WORK_DIRECTORIES first.2.2).1 = Ok tt)
    by (vm_compute; reflexivity).
  rewrite Hsetup in Hcase. destruct Hcase as [Hraise Hdirs].
  split; [by rewrite Hst |]. split; [exact Hraise |].
  apply Hdirs. apply list_elem_of_In. cbn. auto 10.
Defined.

(** ** Project.clear_tmp_directory *)

Lemma lookup_rmtree_other (removable : FS.path → bool)
    (fs : gmap FS.path FS.node) (p k : FS.path) :
  ¬ p `prefix_of` k →
  filter (fun kv : FS.path * FS.node =>
            ¬ p `prefix_of` kv.1 ∨ FS.held removable fs kv.1) fs !! k
  = fs !! k.
Proof.
  intros Hk. destruct (fs !! k) as [n|] eqn:E.
  - apply map_lookup_filter_Some. split; [done | by left].
  - apply map_lookup_filter_None. by left.
Qed.















(** Nor does it hold when [tmp] is a regular file: [rmtree] fails
    silently and [mkdir] finds the file in its way. *)
Example clear_tmp_directory_over_a_file :
  (Project.clear_tmp_directory Sample.all_removable Sample.acme
     (<[Project.tmp_path Sample.acme := FS.File]> Sample.after_first.2.2)).1
  = Raise (FileExistsError "").
Proof. vm_compute; reflexivity. Qed.

(** Nor when a file in [tmp] cannot be removed: the failure is ignored,
    the call returns normally and the file is still there. *)
Example clear_tmp_directory_protected_file :
  let out := Project.clear_tmp_directory Sample.scan_file_protected
               Sample.acme Sample.disk_with_scan_file in
  out.1 = Ok tt ∧ FS.stat out.2 Sample.scan_file = Some FS.File.
Proof. split; vm_compute; reflexivity. Qed.


(** ** CodebaseResource.set_scan_results *)

Lemma mem_app (name : string) (l1 l2 : list string) :
  mem name (l1 ++ l2) = mem name l1 || mem name l2.
Proof. apply existsb_app. Qed.

(** The seven scan fields are model fields. *)
Lemma scan_fields_recognized (AbstractResource_fields : list string)
    (field_name : string) :
  mem field_name CodebaseResource.scan_fields = true →
  mem field_name (CodebaseResource.model_fields AbstractResource_fields) = true.
Proof.
  intros H. unfold CodebaseResource.model_fields.
  change (mem field_name (?a :: ?b :: ?l))
    with (String.eqb field_name a || (String.eqb field_name b || mem field_name l)).
  rewrite mem_app, H. by rewrite !orb_true_r.
Qed.

Lemma item_In (key : string) (v : pyval) (items : list (string * pyval)) :
  NoDup items.*1 → (key, v) ∈ items → item key items = Some v.
Proof.
  induction items as [|[k w] items IH]; simpl; intros Hnd Hin.
  - by apply elem_of_nil in Hin.
  - apply NoDup_cons in Hnd as [Hk Hnd].
    apply elem_of_cons in Hin as [[= -> ->]|Hin].
    + by rewrite String.eqb_refl.
    + destruct (String.eqb_spec k key) as [->|Hne]; [|by apply IH].
      exfalso. apply Hk. apply list_elem_of_fmap. by exists (key, v).
Qed.

Lemma item_Some_In (key : string) (v : pyval) (items : list (string * pyval)) :
  item key items = Some v → (key, v) ∈ items.
Proof.
  induction items as [|[k w] items IH]; simpl; [done |].
  destruct (String.eqb_spec k key) as [->|Hne].
  - intros [= ->]. apply elem_of_cons. by left.
  - intros H. apply elem_of_cons. right. by apply IH.
Qed.

(** What the loop leaves in every attribute, when no truthy value sits
    under the name of a relation. *)
Lemma set_scan_results_loop_spec (AbstractResource_fields : list string)
    (items : list (string * pyval)) (self : CodebaseResource.t) :
  NoDup items.*1 →
  (∀ f v, (f, v) ∈ items → truthy v = true →
          f ≠ "project" ∧ f ≠ "discovered_packages") →
  ∃ self',
    CodebaseResource.set_scan_results_loop AbstractResource_fields self items
    = (Ok tt, self') ∧
    CodebaseResource.project self' = CodebaseResource.project self ∧
    ∀ f, CodebaseResource.attrs self' !! f =
         match item f items with
         | Some v =>
             if truthy v &&
                mem f (CodebaseResource.model_fields AbstractResource_fields)
             then Some v else CodebaseResource.attrs self !! f
         | None => CodebaseResource.attrs self !! f
         end.
Proof.
  revert self. induction items as [|[k v] items IH]; intros self Hnd Hrel.
  - by exists self.
  - apply NoDup_cons in Hnd as [Hk Hnd].
    assert (Hrel' : ∀ f w, (f, w) ∈ items → truthy w = true →
                           f ≠ "project" ∧ f ≠ "discovered_packages").
    { intros f w Hin. apply Hrel, elem_of_cons. by right. }
    assert (Hfresh : ∀ f, f = k → item f items = None).
    { intros f ->. destruct (item k items) as [w|] eqn:E; [|done].
      exfalso. apply Hk, list_elem_of_fmap. exists (k, w).
      split; [done | by apply item_Some_In]. }
    cbn [CodebaseResource.set_scan_results_loop item].
    destruct (truthy v &&
              mem k (CodebaseResource.model_fields AbstractResource_fields))
      eqn:Hguard.
    + apply andb_true_iff in Hguard as [Hv Hm].
      destruct (Hrel k v ltac:(apply elem_of_cons; by left) Hv) as [Hp Hd].
      unfold CodebaseResource.setattr.
      apply String.eqb_neq in Hp, Hd. rewrite Hp, Hd.
      destruct (IH (CodebaseResource.with_attr k v self) Hnd Hrel')
        as (self' & -> & Hproj & Hattrs).
      exists self'. split; [done |]. split; [done |]. intros f.
      rewrite Hattrs. destruct (String.eqb_spec k f) as [->|Hne].
      * rewrite (Hfresh f eq_refl), Hv, Hm. simpl. apply lookup_insert_eq.
      * simpl. rewrite lookup_insert_ne by done. done.
    + destruct (IH self Hnd Hrel') as (self' & -> & Hproj & Hattrs).
      exists self'. split; [done |]. split; [done |]. intros f.
      rewrite Hattrs. destruct (String.eqb_spec k f) as [->|Hne]; [|done].
      by rewrite (Hfresh f eq_refl), Hguard.
Qed.

(** C3, as the code has it. For a scan mapping (its items in order, with
    distinct keys) that has no truthy value under the relation names
    [project] and [discovered_packages], the loop of [set_scan_results]
    completes; every model field, so every scan field, that the mapping
    gives a truthy value is overwritten with it; every attribute that is
    absent from the mapping or has a falsy value there, or that is not a
    model field, is left as it was; and the resource is saved only when
    asked. *)
Theorem set_scan_results_overwrites (AbstractResource_fields : list string)
    (AbstractResource_check : CodebaseResource.t → option exn)
    (AbstractResource_editable : list (string * pyval))
    (Project_fetch : N → option exn)
    (ProjectError_check : ProjectError.t → option exn)
    (self : CodebaseResource.t) (scan_results : list (string * pyval))
    (save : bool) (st : list CodebaseResource.t * list ProjectError.t) :
  NoDup scan_results.*1 →
  (∀ f v, (f, v) ∈ scan_results → truthy v = true →
          f ≠ "project" ∧ f ≠ "discovered_packages") →
  ∃ self',
    CodebaseResource.set_scan_results_loop AbstractResource_fields self
      scan_results = (Ok tt, self') ∧
    CodebaseResource.set_scan_results AbstractResource_fields
      AbstractResource_check AbstractResource_editable Project_fetch
      ProjectError_check self scan_results save st
    = (if save
       then SaveProjectErrorMixin.save
              (H := CodebaseResource.resource_model AbstractResource_check
                      AbstractResource_editable Project_fetch)
              ProjectError_check false self' st
       else (Ok tt, self', st)) ∧
    (∀ f v, mem f CodebaseResource.scan_fields = true →
            (f, v) ∈ scan_results → truthy v = true →
            CodebaseResource.attrs self' !! f = Some v) ∧
    (∀ f v, mem f (CodebaseResource.model_fields AbstractResource_fields) = true →
            (f, v) ∈ scan_results → truthy v = true →
            CodebaseResource.attrs self' !! f = Some v) ∧
    (∀ f, (∀ v, (f, v) ∈ scan_results → truthy v = false) →
          CodebaseResource.attrs self' !! f = CodebaseResource.attrs self !! f) ∧
    (∀ f, mem f (CodebaseResource.model_fields AbstractResource_fields) = false →
          CodebaseResource.attrs self' !! f = CodebaseResource.attrs self !! f).
Proof.
  intros Hnd Hrel.
  destruct (set_scan_results_loop_spec AbstractResource_fields scan_results
              self Hnd Hrel) as (self' & Hloop & _ & Hattrs).
  exists self'. split; [done |].
  split; [unfold CodebaseResource.set_scan_results; by rewrite Hloop |].
  assert (Hmodel : ∀ f v,
            mem f (CodebaseResource.model_fields AbstractResource_fields) = true →
            (f, v) ∈ scan_results → truthy v = true →
            CodebaseResource.attrs self' !! f = Some v).
  { intros f v Hm Hin Hv. by rewrite Hattrs, (item_In f v), Hv, Hm. }
  split; [intros f v Hs; by apply Hmodel, scan_fields_recognized |].
  split; [exact Hmodel |]. split.
  - intros f Hfalsy. rewrite Hattrs.
    destruct (item f scan_results) as [v|] eqn:E; [|done].
    by rewrite (Hfalsy v (item_Some_In _ _ _ E)).
  - intros f Hm. rewrite Hattrs, Hm.
    destruct (item f scan_results) as [v|]; [|done].
    by rewrite andb_false_r.
Qed.

(** The two mappings of the specification: an empty list of licences
    leaves the detected licence, a list with one licence replaces it. *)
Example set_scan_results_empty_licenses :
  CodebaseResource.attrs
    (CodebaseResource.set_scan_results_loop Sample.resource_fields
       Sample.resource [("licenses", PList [])]).2 !! "licenses"
  = Some Sample.gpl.
Proof. vm_compute; reflexivity. Qed.

Example set_scan_results_mit_licenses :
  CodebaseResource.attrs
    (CodebaseResource.set_scan_results_loop Sample.resource_fields
       Sample.resource [("licenses", Sample.mit)]).2 !! "licenses"
  = Some Sample.mit.
Proof. vm_compute; reflexivity. Qed.

(** C3 as stated does not hold for every mapping: [project] is a model
    field, so a truthy value under that name is assigned, which Django
    refuses with [ValueError]; the loop stops there and the licences that
    follow in the mapping are not overwritten. *)
Lemma set_scan_results_project_key :
  let out := CodebaseResource.set_scan_results Sample.resource_fields
               Sample.accept_resource Sample.resource_editable
               Sample.project_held Sample.accept_error Sample.resource
               [("project", PStr "acme"); ("licenses", Sample.mit)]
               false ([], []) in
  out.1.1 = Raise (ValueError
    "Cannot assign: CodebaseResource.project must be a Project instance.")
  ∧ CodebaseResource.attrs out.1.2 !! "licenses" = Some Sample.gpl.
Proof. split; vm_compute; reflexivity. Qed.

(** The theorem on a mapping with new licences and an empty list of
    copyrights. *)
Lemma set_scan_results_overwrites_witness :
  ∃ self',
    CodebaseResource.set_scan_results_loop Sample.resource_fields
      Sample.resource [("licenses", Sample.mit); ("copyrights", PList [])]
    = (Ok tt, self') ∧
    CodebaseResource.attrs self' !! "licenses" = Some Sample.mit ∧
    CodebaseResource.attrs self' !! "copyrights"
    = CodebaseResource.attrs Sample.resource !! "copyrights".
Proof.
  assert (Hnd : NoDup [("licenses", Sample.mit); ("copyrights", PList [])].*1)
    by (refine (bool_decide_unpack _ _); vm_compute; exact I).
  assert (Hrel : ∀ f v,
            (f, v) ∈ [("licenses", Sample.mit); ("copyrights", PList [])] →
            truthy v = true → f ≠ "project" ∧ f ≠ "discovered_packages").
  { intros f v Hin Hv. apply elem_of_cons in Hin as [[= -> ->]|Hin]; [done |].
    apply elem_of_cons in Hin as [[= -> ->]|Hin]; [done |].
    by apply elem_of_nil in Hin. }
  destruct (set_scan_results_overwrites Sample.resource_fields
              Sample.accept_resource Sample.resource_editable
              Sample.project_held Sample.accept_error Sample.resource
              [("licenses", Sample.mit); ("copyrights", PList [])]
              false ([], []) Hnd Hrel)
    as (self' & Hloop & _ & Hscan & _ & Hkeep & _).
  exists self'. split; [exact Hloop |]. split.
  - apply Hscan; [reflexivity | | reflexivity]. apply elem_of_cons. by left.
  - apply Hkeep. intros v Hin.
    apply elem_of_cons in Hin as [[= ]|Hin].
    apply elem_of_cons in Hin as [[= ->]|Hin]; [reflexivity |].
    by apply elem_of_nil in Hin.
Defined.

(** C9. The fields [set_scan_results] recognizes are all the model fields:
    [status] is not one of the seven scan fields, and a truthy value under
    that name in the mapping is written to the resource. *)
Theorem set_scan_results_sets_status (AbstractResource_fields : list string)
    (AbstractResource_check : CodebaseResource.t → option exn)
    (AbstractResource_editable : list (string * pyval))
    (Project_fetch : N → option exn)
    (ProjectError_check : ProjectError.t → option exn)
    (self : CodebaseResource.t)
    (st : list CodebaseResource.t * list ProjectError.t) :
  let out := CodebaseResource.set_scan_results AbstractResource_fields
               AbstractResource_check AbstractResource_editable
               Project_fetch ProjectError_check self
               [("status", PStr "scanned")] false st in
  mem "status" CodebaseResource.scan_fields = false ∧
  mem "status" (CodebaseResource.model_fields AbstractResource_fields) = true ∧
  out.1.1 = Ok tt ∧
  CodebaseResource.attrs out.1.2 !! "status" = Some (PStr "scanned").
Proof.
  intros out. subst out.
  assert (Hm : mem "status"
                 (CodebaseResource.model_fields AbstractResource_fields) = true).
  { unfold CodebaseResource.model_fields.
    change (mem "status" (?a :: ?b :: ?l))
      with (String.eqb "status" a || (String.eqb "status" b || mem "status" l)).
    rewrite !mem_app.
    replace (mem "status" CodebaseResource.own_fields) with true by reflexivity.
    by rewrite !orb_true_r. }
  split; [reflexivity |]. split; [exact Hm |].
  unfold CodebaseResource.set_scan_results.
  cbn [CodebaseResource.set_scan_results_loop truthy]. rewrite Hm.
  cbn. split; [reflexivity |]. apply lookup_insert_eq.
Qed.

(** ** DiscoveredPackage.create_from_data *)

Lemma next_pk_above {R} (pk : R → option Z) (table : list R) (row : R) (j : Z) :
  row ∈ table → pk row = Some j → (j < Rows.next_pk pk table)%Z.
Proof.
  unfold Rows.next_pk. induction table as [|x table IH]; intros Hin Hj.
  - by apply elem_of_nil in Hin.
  - simpl. apply elem_of_cons in Hin as [<-|Hin].
    + rewrite Hj. lia.
    + specialize (IH Hin Hj). destruct (pk x); lia.
Qed.

(** The entries of the cleaned mapping: the recognized, truthy ones. *)
Lemma cleaned_lookup (AbstractPackage_fields : list string)
    (package_data : gmap string pyval) (k : string) (v : pyval) :
  filter (DiscoveredPackage.recognized_and_truthy AbstractPackage_fields)
    package_data !! k = Some v
  ↔ package_data !! k = Some v ∧
    mem k (DiscoveredPackage.model_fields AbstractPackage_fields) = true ∧
    truthy v = true.
Proof.
  rewrite map_lookup_filter_Some.
  unfold DiscoveredPackage.recognized_and_truthy. simpl.
  rewrite andb_true_iff. tauto.
Qed.

(** What the first statement of [create_from_data] does, read off the
    mapping itself. *)
Lemma normalize_entry_cases (normalize_qualifiers : pyval → res pyval)
    (package_data : gmap string pyval) :
  DiscoveredPackage.normalize_entry normalize_qualifiers package_data
  = match package_data !! "qualifiers" with
    | Some q =>
        if truthy q then
          match normalize_qualifiers q with
          | Ok encoded => Ok (<["qualifiers" := encoded]> package_data)
          | Raise e => Raise e
          end
        else Ok package_data
    | None => Ok package_data
    end.
Proof.
  unfold DiscoveredPackage.normalize_entry, DiscoveredPackage.get.
  by destruct (package_data !! "qualifiers") as [q|].
Qed.

Lemma has_pk_false {R} (pk : R → option Z) (i : Z) (table : list R) :
  (∀ row, row ∈ table → pk row ≠ Some i) →
  existsb (Rows.has_pk pk i) table = false.
Proof.
  intros Hfree. apply not_true_iff_false. intros Hex.
  apply existsb_exists in Hex as (row & Hin & Hrow).
  apply (Hfree row); [by apply list_elem_of_In |].
  unfold Rows.has_pk in Hrow. destruct (pk row) as [j|]; [|done].
  apply Z.eqb_eq in Hrow. by subst.
Qed.

(** C6, as the code has it. Let [normalized] be the mapping with its
    qualifiers, when truthy, replaced by what [normalize_qualifiers]
    returns for them. When the recognized truthy entries hold no [project]
    and no [codebase_resources], any primary key among them is an integer
    that no row of the table has, and the database accepts the row,
    [create_from_data] returns and appends to the package table one
    package, of the given project, whose fields are exactly the entries of
    [normalized] that have a recognized key and a truthy value, next to the
    primary key the insert assigns when the mapping gives none. No row
    already in the table is looked at for uniqueness: the new row differs
    from all of them. *)
Theorem create_from_data_fields (AbstractPackage_fields : list string)
    (AbstractPackage_check : DiscoveredPackage.t → option exn)
    (normalize_qualifiers : pyval → res pyval)
    (AbstractPackage_editable : list (string * pyval))
    (related_resources : DiscoveredPackage.t → res pyval)
    (ProjectError_check : ProjectError.t → option exn) (project : N)
    (package_data : gmap string pyval) (encoded : pyval)
    (table : list DiscoveredPackage.t) (errors : list ProjectError.t) :
  let normalized :=
    match package_data !! "qualifiers" with
    | Some q =>
        if truthy q then <["qualifiers" := encoded]> package_data
        else package_data
    | None => package_data
    end in
  let kwargs :=
    filter (DiscoveredPackage.recognized_and_truthy AbstractPackage_fields)
      normalized in
  let package :=
    match kwargs !! "id" with
    | Some _ => DiscoveredPackage.mk project kwargs
    | None =>
        DiscoveredPackage.with_attr "id"
          (PInt (Rows.next_pk DiscoveredPackage.pk table))
          (DiscoveredPackage.mk project kwargs)
    end in
  (∀ q, package_data !! "qualifiers" = Some q → truthy q = true →
        normalize_qualifiers q = Ok encoded) →
  kwargs !! "project" = None →
  kwargs !! "codebase_resources" = None →
  (∀ v, kwargs !! "id" = Some v →
        ∃ i, v = PInt i ∧
             ∀ row, row ∈ table → DiscoveredPackage.pk row ≠ Some i) →
  AbstractPackage_check (DiscoveredPackage.mk project kwargs) = None →
  DiscoveredPackage.create_from_data AbstractPackage_fields
    AbstractPackage_check normalize_qualifiers AbstractPackage_editable
    related_resources ProjectError_check project package_data
    (table, errors)
  = (Ok package, normalized, (table ++ [package], errors))
  ∧ (∀ k v, kwargs !! k = Some v ↔
            normalized !! k = Some v ∧
            mem k (DiscoveredPackage.model_fields AbstractPackage_fields) = true ∧
            truthy v = true)
  ∧ package ∉ table.
Proof.
  intros normalized kwargs package Hq Hproject Hm2m Hid Hcheck.
  assert (Hnorm : DiscoveredPackage.normalize_entry normalize_qualifiers
                    package_data = Ok normalized).
  { rewrite normalize_entry_cases. subst normalized.
    destruct (package_data !! "qualifiers") as [q|] eqn:Eq; [|done].
    destruct (truthy q) eqn:Hv; [|done]. by rewrite (Hq q eq_refl Hv). }
  split; [|split].
  - unfold DiscoveredPackage.create_from_data. rewrite Hnorm.
    fold kwargs. unfold DiscoveredPackage.objects_create.
    rewrite Hproject, Hm2m.
    rewrite !bool_decide_eq_false_2 by (by intros [? ?]).
    unfold SaveProjectErrorMixin.save.
    cbn [super_save DiscoveredPackage.package_model].
    unfold Rows.Model_save, Rows.insert. cbn [negb andb]. rewrite Hcheck.
    subst package. destruct (kwargs !! "id") as [v|] eqn:Ev.
    + destruct (Hid v eq_refl) as (i & -> & Hfree).
      assert (Hpk : DiscoveredPackage.pk (DiscoveredPackage.mk project kwargs)
                    = Some i).
      { unfold DiscoveredPackage.pk, attrs_pk.
        cbn [DiscoveredPackage.attrs]. by rewrite Ev. }
      rewrite Hpk. by rewrite (has_pk_false _ i table Hfree).
    + assert (Hpk : DiscoveredPackage.pk (DiscoveredPackage.mk project kwargs)
                    = None).
      { unfold DiscoveredPackage.pk, attrs_pk.
        cbn [DiscoveredPackage.attrs]. by rewrite Ev. }
      by rewrite Hpk.
  - intros k v. apply cleaned_lookup.
  - intros Hin. subst package.
    destruct (kwargs !! "id") as [v|] eqn:Ev.
    + destruct (Hid v eq_refl) as (i & -> & Hfree).
      apply (Hfree _ Hin). unfold DiscoveredPackage.pk, attrs_pk.
      cbn [DiscoveredPackage.attrs]. by rewrite Ev.
    + set (package := DiscoveredPackage.with_attr _ _ _) in Hin.
      assert (Hpk : DiscoveredPackage.pk package
                    = Some (Rows.next_pk DiscoveredPackage.pk table)).
      { unfold package, DiscoveredPackage.pk, attrs_pk,
          DiscoveredPackage.with_attr.
        cbn [DiscoveredPackage.attrs]. by rewrite lookup_insert_eq. }
      pose proof (next_pk_above DiscoveredPackage.pk table package _ Hin Hpk).
      lia.
Qed.

(** C6 as stated does not hold for every mapping: a truthy [project] entry
    is recognized, reaches [objects.create] as a second value for the
    keyword [project], and the call raises [TypeError]; no package is
    written. *)
Lemma create_from_data_project_key :
  let out := DiscoveredPackage.create_from_data Sample.package_fields
               Sample.accept_package Sample.normalize Sample.package_editable
               Sample.no_related Sample.accept_error 7
               (<["project" := PStr "acme"]> Sample.package_data) ([], []) in
  out.1.1
  = Raise (TypeError "got multiple values for keyword argument 'project'")
  ∧ out.2 = ([], []).
Proof. split; vm_compute; reflexivity. Qed.

(** The theorem on the package data of the samples: the name is kept,
    the empty version and the unrecognized [datasource] are dropped. *)
Lemma create_from_data_fields_witness :
  let normalized :=
    <["qualifiers" := PStr "classifier=SOURCES"]> Sample.package_data in
  let kwargs :=
    filter (DiscoveredPackage.recognized_and_truthy Sample.package_fields)
      normalized in
  let package :=
    DiscoveredPackage.with_attr "id"
      (PInt (Rows.next_pk DiscoveredPackage.pk []))
      (DiscoveredPackage.mk 7 kwargs) in
  (DiscoveredPackage.create_from_data Sample.package_fields
     Sample.accept_package Sample.normalize Sample.package_editable
     Sample.no_related Sample.accept_error 7 Sample.package_data ([], [])).1.1
  = Ok package
  ∧ kwargs !! "name" = Some (PStr "log4j")
  ∧ kwargs !! "version" = None
  ∧ kwargs !! "datasource" = None.
Proof.
  intros normalized kwargs package.
  split; [|repeat split; vm_compute; reflexivity].
  pose proof (create_from_data_fields Sample.package_fields
                Sample.accept_package Sample.normalize Sample.package_editable
                Sample.no_related Sample.accept_error 7 Sample.package_data
                (PStr "classifier=SOURCES") [] []) as Hthm.
  cbv zeta in Hthm.
  assert (Hq : ∀ q, Sample.package_data !! "qualifiers" = Some q →
                    truthy q = true →
                    Sample.normalize q = Ok (PStr "classifier=SOURCES")).
  { intros q Hq _. vm_compute in Hq. by injection Hq as <-. }
  destruct (Hthm Hq) as (Heq & _).
  - vm_compute; reflexivity.
  - vm_compute; reflexivity.
  - intros v Hv. vm_compute in Hv. discriminate Hv.
  - reflexivity.
  - rewrite Heq. vm_compute; reflexivity.
Defined.

(** A truthy [codebase_resources] entry is refused as well; a primary
    key that a stored package has makes the insert fail, which the
    error-capturing [save] records: the package returned is not in the
    table. When the related resources of that key cannot be fetched for the
    error row, the call raises. *)
Example create_from_data_codebase_resources_key :
  (DiscoveredPackage.create_from_data Sample.package_fields
     Sample.accept_package Sample.normalize Sample.package_editable
     Sample.no_related Sample.accept_error 7
     (<["codebase_resources" := PList [PInt 1]]> Sample.package_data)
     ([], [])).1.1
  = Raise (TypeError
      "Direct assignment to the forward side of a many-to-many set is prohibited.").
Proof. vm_compute; reflexivity. Qed.

Example create_from_data_with_taken_key :
  let stored := DiscoveredPackage.mk 7 (<["id" := PInt 5]> ∅) in
  let out := DiscoveredPackage.create_from_data Sample.package_fields
               Sample.accept_package Sample.normalize Sample.package_editable
               Sample.no_related Sample.accept_error 7
               (<["id" := PInt 5]> (<["name" := PStr "log4j"]> ∅))
               ([stored], []) in
  out.2.1 = [stored] ∧
  map ProjectError.message out.2.2
  = ["duplicate key value violates unique constraint"].
Proof. split; vm_compute; reflexivity. Qed.

Example create_from_data_fields_not_read :
  let stored := DiscoveredPackage.mk 7 (<["id" := PInt 5]> ∅) in
  let out := DiscoveredPackage.create_from_data Sample.package_fields
               Sample.accept_package Sample.normalize Sample.package_editable
               Sample.unreachable_related Sample.accept_error 7
               (<["id" := PInt 5]> (<["name" := PStr "log4j"]> ∅))
               ([stored], []) in
  out.1.1 = Raise Sample.connection_lost ∧ out.2 = ([stored], []).
Proof. split; vm_compute; reflexivity. Qed.

(** A primary key in the mapping that no row has is kept as it is. *)
Example create_from_data_with_free_key :
  let out := DiscoveredPackage.create_from_data Sample.package_fields
               Sample.accept_package Sample.normalize Sample.package_editable
               Sample.no_related Sample.accept_error 7
               (<["id" := PInt 5]> (<["name" := PStr "log4j"]> ∅))
               ([], []) in
  map (fun p => (DiscoveredPackage.attrs p !! "id",
                 DiscoveredPackage.attrs p !! "name")) out.2.1
  = [(Some (PInt 5), Some (PStr "log4j"))]
  ∧ out.2.2 = [].
Proof. split; vm_compute; reflexivity. Qed.

(** Two calls with package data of the same package URL: two rows, which
    differ in their primary key only. *)
Example create_from_data_same_url_twice :
  let first := DiscoveredPackage.create_from_data Sample.package_fields
                 Sample.accept_package Sample.normalize
                 Sample.package_editable Sample.no_related
                 Sample.accept_error 7 Sample.package_data ([], []) in
  let second := DiscoveredPackage.create_from_data Sample.package_fields
                  Sample.accept_package Sample.normalize
                  Sample.package_editable Sample.no_related
                  Sample.accept_error 7 Sample.package_data first.2 in
  map (fun p => (DiscoveredPackage.attrs p !! "id",
                 DiscoveredPackage.attrs p !! "package_url")) second.2.1
  = [(Some (PInt 1), Some (PStr "pkg:maven/log4j"));
     (Some (PInt 2), Some (PStr "pkg:maven/log4j"))]
  ∧ second.2.2 = [].
Proof. split; vm_compute; reflexivity. Qed.

(** What the call leaves in the caller's mapping, whatever happens in the
    rest of the call. *)
Lemma create_from_data_mapping (AbstractPackage_fields : list string)
    (AbstractPackage_check : DiscoveredPackage.t → option exn)
    (normalize_qualifiers : pyval → res pyval)
    (AbstractPackage_editable : list (string * pyval))
    (related_resources : DiscoveredPackage.t → res pyval)
    (ProjectError_check : ProjectError.t → option exn) (project : N)
    (package_data : gmap string pyval)
    (st : list DiscoveredPackage.t * list ProjectError.t) :
  let out := DiscoveredPackage.create_from_data AbstractPackage_fields
               AbstractPackage_check normalize_qualifiers
               AbstractPackage_editable related_resources
               ProjectError_check project package_data st in
  match DiscoveredPackage.normalize_entry normalize_qualifiers package_data with
  | Ok normalized => out.1.2 = normalized
  | Raise e => out = (Raise e, package_data, st)
  end.
Proof.
  unfold DiscoveredPackage.create_from_data.
  destruct (DiscoveredPackage.normalize_entry _ _); [|done].
  by destruct (DiscoveredPackage.objects_create _ _ _ _ _ _ _).
Qed.

(** C10, as the code has it. [create_from_data] changes the mapping it is
    given: a truthy [qualifiers] entry that [normalize_qualifiers] turns
    into [encoded] is replaced by [encoded] in the caller's mapping,
    whatever happens in the rest of the call; when [normalize_qualifiers]
    raises on it, the call raises the same exception, writes nothing and
    leaves the mapping as it was; and a mapping without a truthy
    [qualifiers] entry is left as it was. *)
Theorem create_from_data_changes_argument
    (AbstractPackage_fields : list string)
    (AbstractPackage_check : DiscoveredPackage.t → option exn)
    (normalize_qualifiers : pyval → res pyval)
    (AbstractPackage_editable : list (string * pyval))
    (related_resources : DiscoveredPackage.t → res pyval)
    (ProjectError_check : ProjectError.t → option exn) (project : N)
    (package_data : gmap string pyval)
    (st : list DiscoveredPackage.t * list ProjectError.t) :
  let out := DiscoveredPackage.create_from_data AbstractPackage_fields
               AbstractPackage_check normalize_qualifiers
               AbstractPackage_editable related_resources
               ProjectError_check project package_data st in
  match package_data !! "qualifiers" with
  | Some q =>
      if truthy q then
        match normalize_qualifiers q with
        | Ok encoded => out.1.2 = <["qualifiers" := encoded]> package_data
        | Raise e => out = (Raise e, package_data, st)
        end
      else out.1.2 = package_data
  | None => out.1.2 = package_data
  end.
Proof.
  intros out.
  pose proof (create_from_data_mapping AbstractPackage_fields
                AbstractPackage_check normalize_qualifiers
                AbstractPackage_editable related_resources
                ProjectError_check project package_data st) as Hm.
  cbv zeta in Hm. fold out in Hm. rewrite normalize_entry_cases in Hm.
  destruct (package_data !! "qualifiers") as [q|]; [|done].
  destruct (truthy q); [|done].
  by destruct (normalize_qualifiers q).
Qed.

(** C10 as stated does not hold for every truthy [qualifiers] entry: the
    number 5 is truthy and is no qualifiers, [normalize_qualifiers] raises
    [ValueError], and after the call the caller's mapping holds the number
    still, not an encoded string. *)
Lemma create_from_data_keeps_invalid_qualifiers :
  let out := DiscoveredPackage.create_from_data Sample.package_fields
               Sample.accept_package Sample.normalize Sample.package_editable
               Sample.no_related Sample.accept_error 7
               Sample.package_data_bad_qualifiers ([], []) in
  Sample.package_data_bad_qualifiers !! "qualifiers" = Some (PInt 5)
  ∧ truthy (PInt 5) = true
  ∧ out.1.1 = Raise (ValueError "Invalid qualifier.")
  ∧ out.1.2 !! "qualifiers" = Some (PInt 5).
Proof. repeat split; vm_compute; reflexivity. Qed.

(** The theorem on the package data of the samples: after the call the
    qualifiers of the caller's mapping are the encoded string. *)
Lemma create_from_data_changes_argument_witness :
  (DiscoveredPackage.create_from_data Sample.package_fields
     Sample.accept_package Sample.normalize Sample.package_editable
     Sample.no_related Sample.accept_error 7 Sample.package_data
     ([], [])).1.2
  = <["qualifiers" := PStr "classifier=SOURCES"]> Sample.package_data.
Proof.
  exact (create_from_data_changes_argument Sample.package_fields
           Sample.accept_package Sample.normalize Sample.package_editable
           Sample.no_related Sample.accept_error 7 Sample.package_data
           ([], [])).
Defined.

(** When the normalization raises, the mapping is untouched as well and
    nothing is written. *)
Lemma create_from_data_invalid_qualifiers
    (AbstractPackage_fields : list string)
    (AbstractPackage_check : DiscoveredPackage.t → option exn)
    (normalize_qualifiers : pyval → res pyval)
    (AbstractPackage_editable : list (string * pyval))
    (related_resources : DiscoveredPackage.t → res pyval)
    (ProjectError_check : ProjectError.t → option exn) (project : N)
    (package_data : gmap string pyval)
    (st : list DiscoveredPackage.t * list ProjectError.t) (e : exn) :
  truthy (DiscoveredPackage.get package_data "qualifiers") = true →
  normalize_qualifiers (DiscoveredPackage.get package_data "qualifiers")
  = Raise e →
  DiscoveredPackage.create_from_data AbstractPackage_fields
    AbstractPackage_check normalize_qualifiers AbstractPackage_editable
    related_resources ProjectError_check project package_data st
  = (Raise e, package_data, st).
Proof.
  intros Hq Hn.
  unfold DiscoveredPackage.create_from_data, DiscoveredPackage.normalize_entry.
  by rewrite Hq, Hn.
Qed.

(** The mapping of the samples after the call: the qualifiers are the
    encoded string. *)
Example create_from_data_changes_sample :
  (DiscoveredPackage.create_from_data Sample.package_fields
     Sample.accept_package Sample.normalize Sample.package_editable
     Sample.no_related Sample.accept_error 7 Sample.package_data
     ([], [])).1.2 !! "qualifiers"
  = Some (PStr "classifier=SOURCES").
Proof. vm_compute; reflexivity. Qed.

(** * Further properties of the models *)

(** ** Run.get_run_id *)

Lemma strip_prefix_Some (p s rest : string) :
  Text.strip_prefix p s = Some rest → s = p +:+ rest.
Proof.
  revert s. induction p as [|a p IH]; intros s; simpl.
  - by intros [= ->].
  - destruct s as [|b s]; [done |].
    destruct (Ascii.eqb_spec a b) as [->|]; [|done].
    intros H. by rewrite (IH s H).
Qed.

Lemma digits_prefix_split (s : string) :
  ∃ post, s = Text.digits_prefix s +:+ post.
Proof.
  induction s as [|c s [post IH]]; simpl; [by exists "" |].
  destruct (Text.is_digit c); [|by exists (String c s)].
  exists post. simpl. by rewrite <- IH.
Qed.

Lemma match_here_prefix (s m : string) :
  Text.match_here s = Some m → ∃ post, s = m +:+ post.
Proof.
  unfold Text.match_here.
  destruct (Text.strip_prefix "run-id " s) as [rest|] eqn:Hs; [|done].
  apply strip_prefix_Some in Hs as ->.
  destruct (digits_prefix_split rest) as [post Hpost].
  destruct (Text.digits_prefix rest) as [|c ds] eqn:Hd; [done |].
  intros [= <-]. exists post. rewrite Hpost at 1.
  by rewrite <- !append_assoc.
Qed.

(** What [search] returns is a piece of the text. *)
Lemma search_occurs (s m : string) :
  Text.search s = Some m → ∃ pre post, s = pre +:+ m +:+ post.
Proof.
  induction s as [|c s IH]; cbn [Text.search].
  - destruct (Text.match_here "") eqn:E; [|done]. intros [= <-].
    apply match_here_prefix in E as [post ->]. by exists "", post.
  - destruct (Text.match_here (String c s)) eqn:E.
    + intros [= <-]. apply match_here_prefix in E as [post E].
      exists "", post. by rewrite E.
    + intros [pre [post ->]]%IH. by exists (String c pre), post.
Qed.

(** X1. [get_run_id] has three outcomes and no other: nothing for an
    empty task output, [AttributeError] for an output that is not empty
    and holds no match, and otherwise a run of digits, not empty, that
    follows a [run-id ] token of the output. It never raises
    [IndexError], and the test on [run_id_string] never fails. *)
Theorem get_run_id_outcomes (self : Run.t) :
  (Run.task_output self = "" ∧ Run.get_run_id self = Ok None)
  ∨ (Run.task_output self ≠ "" ∧
     Text.search (Run.task_output self) = None ∧
     Run.get_run_id self
     = Raise (AttributeError "'NoneType' object has no attribute 'group'"))
  ∨ (∃ ds pre post,
       Run.task_output self = pre +:+ "run-id " +:+ ds +:+ post ∧
       ds ≠ "" ∧ Text.all_digits ds = true ∧
       Run.get_run_id self = Ok (Some ds)).
Proof.
  destruct (String.eqb_spec (Run.task_output self) "") as [He|Hne].
  - left. split; [done |]. by apply get_run_id_empty_output.
  - right. destruct (Text.search (Run.task_output self)) as [m|] eqn:Hs.
    + right. destruct (get_run_id_match self m Hs) as (ds & -> & Hd & Hn & Hr).
      destruct (search_occurs _ _ Hs) as (pre & post & Ho).
      exists ds, pre, post. rewrite Ho at 1.
      by rewrite <- !append_assoc.
    + left. repeat split; try done.
      unfold Run.get_run_id. rewrite Hs.
      by destruct (Run.task_output self).
Qed.

(** Behind a text that is not empty, a [run-id ] token that follows does
    not complete a match that the text alone does not hold. *)
Lemma match_here_append (b s : string) :
  b ≠ "" → Text.match_here b = None →
  Text.match_here (b +:+ String "r"%char s) = None.
Proof.
  intros Hb. unfold Text.match_here.
  destruct b as [|c b]; [done |]. clear Hb.
  cbn [Text.strip_prefix String.append]. destruct (Ascii.eqb _ c); [|done].
  do 6 (destruct b as [|c' b]; [done |]; clear c;
        cbn [Text.strip_prefix String.append];
        destruct (Ascii.eqb _ c'); [|done]; rename c' into c).
  destruct b as [|x b]; [done |].
  cbn [Text.digits_prefix String.append].
  by destruct (Text.is_digit x).
Qed.

Lemma search_None_suffix (a b : string) :
  Text.search (a +:+ b) = None → Text.match_here b = None.
Proof.
  induction a as [|c a IH].
  - cbn [String.append]. destruct b; cbn [Text.search];
      by destruct (Text.match_here _).
  - change (String c a +:+ b) with (String c (a +:+ b)). cbn [Text.search].
    destruct (Text.match_here (String c (a +:+ b))); [done | exact IH].
Qed.

(** X2. The first token wins: when the task output is a text that holds
    no match, then [run-id ] and a run of digits, not empty and not
    followed by a digit, [get_run_id] returns these digits, whatever comes
    after them. *)
Theorem get_run_id_first_token (self : Run.t) (pre ds post : string) :
  Run.task_output self = pre +:+ "run-id " +:+ ds +:+ post →
  ds ≠ "" → Text.all_digits ds = true → Text.starts_with_digit post = false →
  Text.search pre = None →
  Run.get_run_id self = Ok (Some ds).
Proof.
  intros Hout Hne Hd Hp Hpre.
  assert (Hs : Text.search (Run.task_output self) = Some ("run-id " +:+ ds)).
  { rewrite Hout, search_skip.
    - destruct ds as [|c ds]; [done |].
      pose proof (match_here_token (String c ds) post Hne Hd Hp) as Hm.
      cbn [Text.search]. simpl in Hm |- *. by rewrite Hm.
    - intros a b -> Hb. apply (match_here_append b _ Hb).
      by apply (search_None_suffix a). }
  destruct (get_run_id_match self _ Hs) as (ds' & Heq & _ & _ & ->).
  simpl in Heq. by injection Heq as ->.
Qed.

(** A task output with a second token after the first: the digits of the
    first are returned. *)
Lemma get_run_id_first_token_witness :
  Run.get_run_id
    (Sample.run_with_output (Sample.output_with_token +:+ " run-id 7"))
  = Ok (Some "4821").
Proof.
  apply (get_run_id_first_token _ ("Pipeline starting" +:+ Sample.newline)
           "4821" (Sample.newline +:+ "done run-id 7")).
  - reflexivity.
  - discriminate.
  - reflexivity.
  - reflexivity.
  - reflexivity.
Defined.

(** ** Short ids and work directories *)

Lemma hex_digit_is_hex (n : N) : UUID.is_hex_digit (UUID.hex_digit n) = true.
Proof.
  unfold UUID.hex_digit. generalize (N.to_nat n). intros k.
  do 16 (destruct k as [|k]; [reflexivity |]). by destruct k.
Qed.

Lemma short_uuid_length (u : N) : String.length (UUID.short_uuid u) = 8.
Proof. reflexivity. Qed.

(** X3. The short id of every UUID is a text of exactly eight lower-case
    hexadecimal digits (so it holds no dash and no slash). *)
Theorem short_uuid_eight_hex_digits (u : N) :
  String.length (UUID.short_uuid u) = 8 ∧
  forallb UUID.is_hex_digit (String.list_ascii_of_string (UUID.short_uuid u))
  = true.
Proof.
  split; [reflexivity |].
  unfold UUID.short_uuid, UUID.str, UUID.hex32.
  cbn [UUID.hex_rev rev app].
  cbn [String.string_of_list_ascii String.substring String.append
       String.list_ascii_of_string forallb].
  by rewrite !hex_digit_is_hex.
Qed.

Lemma length_append (a b : string) :
  String.length (a +:+ b) = String.length a + String.length b.
Proof. induction a as [|c a IH]; simpl; [done | by rewrite IH]. Qed.

Lemma append_inv_head (a b c : string) : a +:+ b = a +:+ c → b = c.
Proof. induction a as [|x a IH]; simpl; [done |]. intros [= H]. by apply IH. Qed.

Lemma append_inj_length (a b c d : string) :
  a +:+ b = c +:+ d → String.length b = String.length d → a = c ∧ b = d.
Proof.
  revert c. induction a as [|x a IH]; intros c H Hlen.
  - destruct c as [|y c]; [done |]. simpl in H.
    apply (f_equal String.length) in H. simpl in H.
    rewrite length_append in H. lia.
  - destruct c as [|y c]; simpl in H.
    + apply (f_equal String.length) in H. simpl in H.
      rewrite length_append in H. lia.
    + injection H as -> H. destruct (IH c H Hlen) as [-> ->]. done.
Qed.

(** X4. Two projects get the same work directory text exactly when they
    have the same name and the same short id: the name can be read back
    from the directory, whatever characters it holds. *)
Theorem work_directory_determines_name (WORKSPACE_LOCATION : string)
    (p1 p2 : Project.t) :
  Project.get_project_work_directory WORKSPACE_LOCATION p1
  = Project.get_project_work_directory WORKSPACE_LOCATION p2
  ↔ Project.name p1 = Project.name p2 ∧
    Project.short_uuid p1 = Project.short_uuid p2.
Proof.
  unfold Project.get_project_work_directory. split.
  - intros H. apply append_inv_head, append_inv_head in H.
    rewrite <- !append_assoc in H.
    apply append_inj_length in H as [H1 H2].
    + split; [|done]. apply (append_inj_length _ "-" _ "-") in H1 as [H1 _]; done.
    + unfold Project.short_uuid. by rewrite !short_uuid_length.
  - by intros [-> ->].
Qed.

(** ** Project.save *)

Lemma existsb_false_Forall {A} (f : A → bool) (l : list A) :
  existsb f l = false ↔ ∀ x, x ∈ l → f x = false.
Proof.
  induction l as [|a l IH]; simpl.
  - split; [intros _ x Hx; by apply elem_of_nil in Hx | done].
  - rewrite orb_false_iff, IH. split.
    + intros [Ha Hl] x [->|Hx]%elem_of_cons; auto.
    + intros H. split; [apply H; by left | intros x Hx; apply H; by right].
Qed.

Lemma work_directory_not_empty (WORKSPACE_LOCATION : string) (p : Project.t) :
  String.eqb (Project.get_project_work_directory WORKSPACE_LOCATION p) ""
  = false.
Proof.
  apply String.eqb_neq. intros H. apply (f_equal String.length) in H.
  unfold Project.get_project_work_directory in H.
  rewrite !length_append in H. simpl in H. lia.
Qed.

(** What [create] returns and leaves behind when it succeeds. *)
Lemma create_Ok_full (WORKSPACE_LOCATION name : string) (u : N) (now : Z)
    (table : list Project.t) (disk : gmap FS.path FS.node)
    (p : Project.t) (st1 : list Project.t * gmap FS.path FS.node) :
  Project.create WORKSPACE_LOCATION name u now (table, disk) = (Ok p, st1) →
  let wd := Project.get_project_work_directory WORKSPACE_LOCATION
              (Project.new name u) in
  p = Project.mk false u now name wd (PDict []) ∧
  existsb (Project.conflicts p) table = false ∧
  Project.setup_loop wd Project.WORK_DIRECTORIES disk = (Ok tt, st1.2) ∧
  st1.1 = table ++ [p].
Proof.
  unfold Project.create, Project.save. cbn [Project.new Project.work_directory].
  cbn [String.eqb]. unfold Project.setup_work_directory.
  cbn [Project.set_work_directory Project.work_directory].
  destruct (Project.setup_loop _ _ disk) as [[[]|e] disk'] eqn:Hsetup;
    [|by intros [= ]].
  unfold Project.Model_save. cbn [Project.adding Project.uuid Project.name
    Project.work_directory Project.extra_data].
  destruct (existsb _ table) eqn:Hc; intros [= <- <-]; [done..|].
  repeat split; done.
Qed.

(** X5. A successful [create] returns the row it has written: its work
    directory is the one derived from the workspace location, the name
    and the short id, it is the last row of the table, the four
    subdirectories exist on disk, and whatever was on disk before is
    still there. *)
Theorem create_sets_up_project (WORKSPACE_LOCATION name : string) (u : N)
    (now : Z) (st : list Project.t * gmap FS.path FS.node) (p : Project.t) :
  let out := Project.create WORKSPACE_LOCATION name u now st in
  out.1 = Ok p →
  Project.name p = name ∧ Project.uuid p = u ∧ Project.created_date p = now ∧
  Project.adding p = false ∧
  Project.work_directory p
  = WORKSPACE_LOCATION +:+ "/projects/" +:+ name +:+ "-" +:+ UUID.short_uuid u ∧
  out.2.1 = st.1 ++ [p] ∧
  FS.is_dir out.2.2 (Project.input_path p) = true ∧
  FS.is_dir out.2.2 (Project.output_path p) = true ∧
  FS.is_dir out.2.2 (Project.codebase_path p) = true ∧
  FS.is_dir out.2.2 (Project.tmp_path p) = true ∧
  ∀ q n, FS.stat st.2 q = Some n → FS.stat out.2.2 q = Some n.
Proof.
  intros out. subst out. destruct st as [table disk].
  destruct (Project.create _ name u now (table, disk)) as [r st1] eqn:Hc.
  cbn [fst snd]. intros ->.
  apply create_Ok_full in Hc as (-> & _ & Hsetup & Ht).
  cbn [Project.name Project.uuid Project.created_date Project.adding
       Project.work_directory].
  assert (Hdir : ∀ sub, sub ∈ Project.WORK_DIRECTORIES →
            FS.is_dir st1.2 (Project.subdirectory_path
              (Project.get_project_work_directory WORKSPACE_LOCATION
                 (Project.new name u)) sub) = true).
  { intros sub Hsub. apply is_dir_stat. by eapply setup_loop_Ok. }
  repeat split; try done.
  - apply (Hdir "input"). set_solver.
  - apply (Hdir "output"). set_solver.
  - apply (Hdir "codebase"). set_solver.
  - apply (Hdir "tmp"). set_solver.
  - intros q n Hq. by eapply setup_loop_preserves.
Qed.

(** The theorem at the creation of [acme] in the samples. *)
Lemma create_sets_up_project_witness :
  let out := Project.create Sample.workspace "acme" Sample.uuid_a 100 ([], ∅) in
  Project.work_directory Sample.acme
  = Sample.workspace +:+ "/projects/" +:+ "acme" +:+ "-" +:+
    UUID.short_uuid Sample.uuid_a ∧
  FS.is_dir out.2.2 (Project.input_path Sample.acme) = true.
Proof.
  intros out.
  assert (H : out.1 = Ok Sample.acme) by (vm_compute; reflexivity).
  pose proof (create_sets_up_project Sample.workspace "acme" Sample.uuid_a 100
                ([], ∅) Sample.acme H) as (_ & _ & _ & _ & Hwd & _ & Hin & _).
  exact (conj Hwd Hin).
Defined.

Lemma conflicts_false (self row : Project.t) :
  Project.conflicts self row = false ↔
  Project.uuid self ≠ Project.uuid row ∧ Project.name self ≠ Project.name row.
Proof.
  unfold Project.conflicts.
  rewrite orb_false_iff, N.eqb_neq, String.eqb_neq. done.
Qed.

Lemma filter_all {A} (f : A → bool) (l : list A) :
  (∀ x, x ∈ l → f x = true) → List.filter f l = l.
Proof.
  induction l as [|a l IH]; intros H; [done |]. simpl.
  rewrite (H a ltac:(by left)). f_equal. apply IH. intros x Hx. apply H. by right.
Qed.

Lemma map_id_on {A} (f : A → A) (l : list A) :
  (∀ x, x ∈ l → f x = x) → map f l = l.
Proof.
  induction l as [|a l IH]; intros H; [done |]. simpl.
  rewrite (H a ltac:(by left)). f_equal. apply IH. intros x Hx. apply H. by right.
Qed.

(** X7. Saving again the project that [create] has returned changes
    nothing: the work directory is set, so the disk is not touched, and
    the row is updated with itself. *)
Theorem save_again_changes_nothing (WORKSPACE_LOCATION name : string) (u : N)
    (now later : Z) (st : list Project.t * gmap FS.path FS.node)
    (p : Project.t) :
  let out := Project.create WORKSPACE_LOCATION name u now st in
  out.1 = Ok p →
  Project.save WORKSPACE_LOCATION later p out.2 = (Ok tt, p, out.2).
Proof.
  intros out. subst out. destruct st as [table disk].
  destruct (Project.create _ name u now (table, disk)) as [r [table1 disk1]]
    eqn:Hc.
  cbn [fst snd]. intros ->.
  apply create_Ok_full in Hc as (Hp & Hconf & _ & Ht). cbn [fst] in Ht.
  pose proof (proj1 (existsb_false_Forall _ _) Hconf) as Hf.
  assert (Hrow : ∀ row, row ∈ table →
            Project.uuid row ≠ Project.uuid p ∧ Project.name p ≠ Project.name row).
  { intros row Hrow. apply Hf, conflicts_false in Hrow as [H1 H2].
    split; [by apply not_eq_sym | done]. }
  unfold Project.save.
  replace (String.eqb (Project.work_directory p) "") with false
    by (rewrite Hp; symmetry; apply work_directory_not_empty).
  unfold Project.Model_save.
  replace (Project.adding p) with false by (by rewrite Hp).
  assert (Hfilter : List.filter
            (fun row => negb (N.eqb (Project.uuid row) (Project.uuid p))) table1
          = table).
  { rewrite Ht, List.filter_app. simpl. rewrite N.eqb_refl. simpl.
    rewrite app_nil_r. apply filter_all. intros row Hin.
    apply negb_true_iff, N.eqb_neq. by apply Hrow. }
  rewrite Hfilter.
  replace (existsb (fun row => String.eqb (Project.name p) (Project.name row))
             table) with false.
  2:{ symmetry. apply existsb_false_Forall. intros row Hin.
      apply String.eqb_neq. by apply Hrow. }
  replace (existsb (fun row => N.eqb (Project.uuid row) (Project.uuid p)) table1)
    with true.
  2:{ symmetry. apply existsb_exists. exists p. split; [|apply N.eqb_refl].
      rewrite Ht. apply in_app_iff. right. by left. }
  rewrite map_id_on; [done |]. intros row Hin.
  destruct (N.eqb_spec (Project.uuid row) (Project.uuid p)) as [Heq|]; [|done].
  rewrite Ht in Hin. apply elem_of_app in Hin as [Hin|Hin].
  - by destruct (Hrow row Hin).
  - apply elem_of_cons in Hin as [->|Hin]; [done |]. by apply elem_of_nil in Hin.
Qed.

(** The theorem on [acme]. *)
Lemma save_again_changes_nothing_witness :
  let out := Project.create Sample.workspace "acme" Sample.uuid_a 100 ([], ∅) in
  Project.save Sample.workspace 300 Sample.acme out.2 = (Ok tt, Sample.acme, out.2).
Proof.
  intros out.
  refine (save_again_changes_nothing Sample.workspace "acme" Sample.uuid_a
            100 300 ([], ∅) Sample.acme _).
  vm_compute; reflexivity.
Defined.

(** ** Project.setup_work_directory *)

(** On a directory that exists, [mkdir(parents=True, exist_ok=True)]
    returns without touching the disk. *)
Lemma mkdir_parents_rev_existing (fs : gmap FS.path FS.node)
    (rp : list string) :
  FS.stat fs (rev rp) = Some FS.Dir → FS.mkdir_parents_rev fs rp = (Ok tt, fs).
Proof.
  intros Hs. pose proof Hs as [Hw He]%stat_Some.
  assert (Hos : FS.os_mkdir fs (rev rp) = (Raise (FileExistsError ""), fs)).
  { unfold FS.os_mkdir. by rewrite Hw, He. }
  apply is_dir_stat in Hs.
  destruct rp as [|c rp]; cbn [FS.mkdir_parents_rev]; rewrite Hos;
    cbn [FS.is_ENOENT exn_class FileExistsError String.eqb Ascii.eqb
         Bool.eqb]; by rewrite Hs.
Qed.

Lemma mkdir_parents_existing (fs : gmap FS.path FS.node) (p : FS.path) :
  FS.stat fs p = Some FS.Dir → FS.mkdir_parents fs p = (Ok tt, fs).
Proof.
  intros Hs. apply mkdir_parents_rev_existing. by rewrite rev_involutive.
Qed.

Lemma setup_loop_existing (wd : string) (subs : list string)
    (disk : gmap FS.path FS.node) :
  (∀ sub, sub ∈ subs →
          FS.stat disk (Project.subdirectory_path wd sub) = Some FS.Dir) →
  Project.setup_loop wd subs disk = (Ok tt, disk).
Proof.
  induction subs as [|sub subs IH]; intros H; [done |]. simpl.
  rewrite mkdir_parents_existing by (apply H; by left).
  apply IH. intros s Hs. apply H. by right.
Qed.

(** X8. [setup_work_directory] skips what exists: after a set-up that
    succeeded, a second set-up succeeds as well and leaves the disk as it
    is. *)
Theorem setup_work_directory_again (self : Project.t)
    (disk : gmap FS.path FS.node) :
  let first := Project.setup_work_directory self disk in
  first.1 = Ok tt →
  Project.setup_work_directory self first.2 = (Ok tt, first.2).
Proof.
  intros first. subst first. unfold Project.setup_work_directory.
  destruct (Project.setup_loop _ _ disk) as [r disk'] eqn:Hs.
  cbn [fst snd]. intros ->. apply setup_loop_existing.
  intros sub Hsub. by eapply setup_loop_Ok.
Qed.

(** The theorem for [acme] on an empty disk. *)
Lemma setup_work_directory_again_witness :
  let first := Project.setup_work_directory Sample.acme ∅ in
  Project.setup_work_directory Sample.acme first.2 = (Ok tt, first.2).
Proof.
  intros first.
  refine (setup_work_directory_again Sample.acme ∅ _).
  vm_compute; reflexivity.
Defined.

Lemma os_mkdir_wf (fs fs' : gmap FS.path FS.node) (p : FS.path) (r : res unit) :
  FS.os_mkdir fs p = (r, fs') → FS.wf fs → FS.wf fs'.
Proof.
  intros [(-> & -> & Hw & He)|(e & -> & ->)]%os_mkdir_inv Hwf; [|done].
  intros k n Hk. apply lookup_insert_Some in Hk as [[<- <-]|[Hne Hk]].
  - by apply stat_insert_new.
  - apply stat_insert_preserved; [by apply Hwf | done].
Qed.

Lemma mkdir_wf (b : bool) (fs fs' : gmap FS.path FS.node) (p : FS.path)
    (r : res unit) :
  FS.mkdir b fs p = (r, fs') → FS.wf fs → FS.wf fs'.
Proof.
  unfold FS.mkdir. destruct (FS.os_mkdir fs p) as [r0 fs0] eqn:Hos.
  intros Hm Hwf. pose proof (os_mkdir_wf _ _ _ _ Hos Hwf) as Hwf0.
  destruct r0 as [[]|e]; [by injection Hm as <- <- |].
  destruct (FS.is_ENOENT e); [by injection Hm as <- <- |].
  destruct (b && FS.is_dir fs0 p); by injection Hm as <- <-.
Qed.

Lemma mkdir_parents_rev_wf (fs fs' : gmap FS.path FS.node) (rp : list string)
    (r : res unit) :
  FS.mkdir_parents_rev fs rp = (r, fs') → FS.wf fs → FS.wf fs'.
Proof.
  revert fs fs' r. induction rp as [|c rp IH]; intros fs fs' r; simpl.
  - destruct (FS.os_mkdir fs []) as [r0 fs0] eqn:Hos. intros Hm Hwf.
    pose proof (os_mkdir_wf _ _ _ _ Hos Hwf) as Hwf0.
    destruct r0 as [[]|e]; [by injection Hm as <- <- |].
    destruct (FS.is_ENOENT e); [by injection Hm as <- <- |].
    destruct (FS.is_dir fs0 []); by injection Hm as <- <-.
  - destruct (FS.os_mkdir fs (rev rp ++ [c])) as [r0 fs0] eqn:Hos.
    intros Hm Hwf. pose proof (os_mkdir_wf _ _ _ _ Hos Hwf) as Hwf0.
    destruct r0 as [[]|e]; [by injection Hm as <- <- |].
    destruct (FS.is_ENOENT e).
    + destruct (FS.mkdir_parents_rev fs0 rp) as [r1 fs1] eqn:Hrec.
      pose proof (IH _ _ _ Hrec Hwf0) as Hwf1.
      destruct r1 as [[]|e1]; [|by injection Hm as <- <-].
      by eapply mkdir_wf.
    + destruct (FS.is_dir fs0 (rev rp ++ [c])); by injection Hm as <- <-.
Qed.

Lemma setup_loop_wf (wd : string) (subs : list string)
    (disk disk' : gmap FS.path FS.node) (r : res unit) :
  Project.setup_loop wd subs disk = (r, disk') → FS.wf disk → FS.wf disk'.
Proof.
  revert disk. induction subs as [|sub subs IH]; intros disk; simpl.
  - by intros [= <- <-].
  - destruct (FS.mkdir_parents disk _) as [r0 disk0] eqn:Hm. intros Hl Hwf.
    pose proof (mkdir_parents_rev_wf _ _ _ _ Hm Hwf) as Hwf0.
    destruct r0 as [[]|e]; [by eapply IH | by injection Hl as <- <-].
Qed.

(** X9. [setup_work_directory] only adds directories: whether it returns
    or raises half way, whatever could be reached on disk before is still
    there, unchanged in kind, and a disk that was a tree is one
    afterwards. *)
Theorem setup_work_directory_only_adds (self : Project.t)
    (disk : gmap FS.path FS.node) :
  let out := Project.setup_work_directory self disk in
  (∀ q n, FS.stat disk q = Some n → FS.stat out.2 q = Some n) ∧
  (FS.wf disk → FS.wf out.2).
Proof.
  intros out. subst out. unfold Project.setup_work_directory.
  destruct (Project.setup_loop _ _ disk) as [r disk'] eqn:Hs. cbn [snd].
  split.
  - intros q n Hq. by eapply setup_loop_preserves.
  - by eapply setup_loop_wf.
Qed.

(** The set-up of the work directory of [acme] on an empty disk. *)
Lemma setup_work_directory_only_adds_witness :
  FS.wf (Project.setup_work_directory Sample.acme ∅).2.
Proof.
  apply (proj2 (setup_work_directory_only_adds Sample.acme ∅)).
  refine (bool_decide_unpack _ _). vm_compute. exact I.
Defined.

(** ** Project.clear_tmp_directory, outside [tmp] *)

(** [stat] only reads the entries on the way to a path. *)
Lemma stat_ext (fs fs' : gmap FS.path FS.node) (k : FS.path) :
  (∀ q, q `prefix_of` k → FS.entry fs' q = FS.entry fs q) →
  FS.stat fs' k = FS.stat fs k.
Proof.
  intros H. unfold FS.stat.
  rewrite (walk_ext fs' fs [] k).
  - by rewrite (H k).
  - intros i _. simpl. apply H, prefix_take.
Qed.






(** What is held stays held for the directories above it. *)
Lemma held_prefix (removable : FS.path → bool) (fs : gmap FS.path FS.node)
    (q k : FS.path) :
  q `prefix_of` k → FS.held removable fs k → FS.held removable fs q.
Proof.
  intros Hqk (x & n & Hx & Hkx & Hrem). exists x, n.
  split; [done |]. split; [by etrans | done].
Qed.

Lemma rmtree_wf (removable : FS.path → bool) (fs : gmap FS.path FS.node)
    (p : FS.path) :
  FS.wf fs → FS.wf (FS.rmtree_ignore_errors removable fs p).
Proof.
  intros Hwf. unfold FS.rmtree_ignore_errors.
  destruct (FS.is_dir fs p && negb (FS.is_root p)); [|done].
  intros k n [Hk Hp]%map_lookup_filter_Some. simpl in Hp.
  rewrite <- (Hwf k n Hk). apply stat_ext. intros q Hq.
  unfold FS.entry. destruct (FS.is_root q); [done |].
  destruct Hp as [Hp|Hheld].
  - apply lookup_rmtree_other. intros Hpq. apply Hp. by etrans.
  - destruct (fs !! q) as [m|] eqn:E.
    + etrans; [|symmetry; exact E].
      apply map_lookup_filter_Some. split; [exact E |]. right. simpl.
      by eapply held_prefix.
    + etrans; [|symmetry; exact E].
      apply map_lookup_filter_None. left. exact E.
Qed.

(** X11. [clear_tmp_directory] keeps the disk a tree, whatever its
    outcome and whatever could be removed. *)
Theorem clear_tmp_directory_keeps_tree (removable : FS.path → bool)
    (self : Project.t) (disk : gmap FS.path FS.node) :
  FS.wf disk → FS.wf (Project.clear_tmp_directory removable self disk).2.
Proof.
  intros Hwf. unfold Project.clear_tmp_directory.
  destruct (FS.mkdir true _ _) as [r fs'] eqn:Hm. cbn [snd].
  eapply mkdir_wf; [exact Hm |]. by apply rmtree_wf.
Qed.

(** The theorem on the disk the creation of [acme] leaves, with a file in
    [tmp] that cannot be removed. *)
Lemma clear_tmp_directory_keeps_tree_witness :
  FS.wf (Project.clear_tmp_directory Sample.scan_file_protected Sample.acme
           Sample.disk_with_scan_file).2.
Proof.
  apply clear_tmp_directory_keeps_tree.
  refine (bool_decide_unpack _ _). vm_compute. exact I.
Defined.



(** ** CodebaseResource.set_scan_results, again *)

(** X13. Applying the same scan mapping a second time changes nothing:
    for a mapping with distinct keys and no truthy value under a relation
    name, the loop of [set_scan_results] run on its own result returns
    that result. *)
Theorem set_scan_results_twice (AbstractResource_fields : list string)
    (self : CodebaseResource.t) (scan_results : list (string * pyval)) :
  let once := CodebaseResource.set_scan_results_loop AbstractResource_fields
                self scan_results in
  NoDup scan_results.*1 →
  (∀ f v, (f, v) ∈ scan_results → truthy v = true →
          f ≠ "project" ∧ f ≠ "discovered_packages") →
  CodebaseResource.set_scan_results_loop AbstractResource_fields once.2
    scan_results = once.
Proof.
  intros once Hnd Hrel. subst once.
  destruct (set_scan_results_loop_spec AbstractResource_fields scan_results
              self Hnd Hrel) as (s1 & -> & Hp1 & Ha1).
  cbn [snd].
  destruct (set_scan_results_loop_spec AbstractResource_fields scan_results
              s1 Hnd Hrel) as (s2 & -> & Hp2 & Ha2).
  f_equal. destruct s1 as [p1 a1], s2 as [p2 a2].
  cbn [CodebaseResource.project CodebaseResource.attrs] in *.
  f_equal; [done |].
  apply map_eq. intros f. rewrite Ha2, Ha1.
  destruct (item f scan_results) as [v|]; [|done].
  by destruct (truthy v &&
               mem f (CodebaseResource.model_fields AbstractResource_fields)).
Qed.

(** The theorem on a mapping with new licences and an empty list of
    copyrights. *)
Lemma set_scan_results_twice_witness :
  let once := CodebaseResource.set_scan_results_loop Sample.resource_fields
                Sample.resource
                [("licenses", Sample.mit); ("copyrights", PList [])] in
  CodebaseResource.set_scan_results_loop Sample.resource_fields once.2
    [("licenses", Sample.mit); ("copyrights", PList [])] = once.
Proof.
  intros once.
  refine (set_scan_results_twice Sample.resource_fields Sample.resource
            [("licenses", Sample.mit); ("copyrights", PList [])] _ _).
  - refine (bool_decide_unpack _ _). vm_compute. exact I.
  - intros f v Hin Hv. apply elem_of_cons in Hin as [[= -> ->]|Hin]; [done |].
    apply elem_of_cons in Hin as [[= -> ->]|Hin]; [done |].
    by apply elem_of_nil in Hin.
Defined.

Lemma relation_names_recognized (AbstractResource_fields : list string)
    (f : string) :
  f = "project" ∨ f = "discovered_packages" →
  mem f (CodebaseResource.model_fields AbstractResource_fields) = true.
Proof. by intros [->| ->]. Qed.

Lemma setattr_Raise (self : CodebaseResource.t) (f : string) (v : pyval) :
  truthy v = true →
  ((∃ e, CodebaseResource.setattr self f v = Raise e)
   ↔ f = "project" ∨ f = "discovered_packages").
Proof.
  intros Hv. unfold CodebaseResource.setattr.
  destruct (String.eqb_spec f "project") as [->|Hp].
  - split; [by left |]. intros _. destruct v; try done; by eexists.
  - destruct (String.eqb_spec f "discovered_packages") as [->|Hd].
    + split; [by right |]. intros _. by eexists.
    + split; [by intros [e ?] | by intros [?|?]].
Qed.

(** The loop raises exactly when the mapping holds a truthy value under
    the name of a relation. *)
Lemma set_scan_results_loop_Raise (AbstractResource_fields : list string)
    (items : list (string * pyval)) (self : CodebaseResource.t) :
  (∃ e, (CodebaseResource.set_scan_results_loop AbstractResource_fields
           self items).1 = Raise e)
  ↔ ∃ f v, (f, v) ∈ items ∧ truthy v = true ∧
           (f = "project" ∨ f = "discovered_packages").
Proof.
  revert self. induction items as [|[k w] items IH]; intros self.
  - split; [by intros [e ?] |]. intros (f & v & Hin & _).
    by apply elem_of_nil in Hin.
  - cbn [CodebaseResource.set_scan_results_loop].
    destruct (truthy w) eqn:Hw; cbn [andb].
    + destruct (mem k (CodebaseResource.model_fields AbstractResource_fields))
        eqn:Hm.
      * destruct (CodebaseResource.setattr self k w) as [self'|e] eqn:Hset.
        -- rewrite IH. split.
           ++ intros (f & v & Hin & Hv & Hf). exists f, v.
              split; [by right | done].
           ++ intros (f & v & [[= -> ->]|Hin]%elem_of_cons & Hv & Hf).
              ** apply (setattr_Raise self k w Hw) in Hf as [e He]. congruence.
              ** by exists f, v.
        -- split; [|intros _; by exists e]. intros _. exists k, w.
           split; [by left |]. split; [done |].
           apply (setattr_Raise self k w Hw). by exists e.
      * rewrite IH. split.
        -- intros (f & v & Hin & Hv & Hf). exists f, v.
           split; [by right | done].
        -- intros (f & v & [[= -> ->]|Hin]%elem_of_cons & Hv & Hf).
           ++ apply (relation_names_recognized AbstractResource_fields) in Hf.
              congruence.
           ++ by exists f, v.
    + rewrite IH. split.
      * intros (f & v & Hin & Hv & Hf). exists f, v. split; [by right | done].
      * intros (f & v & [[= -> ->]|Hin]%elem_of_cons & Hv & Hf);
          [congruence | by exists f, v].
Qed.

(** A save on a table that raises has written nothing and has left the
    instance as it was. *)
Lemma Model_save_Raise {R} (pk : R → option Z) (with_pk : Z → R → R)
    (violation : R → list R → option exn) (force_insert : bool) (self : R)
    (table : list R) (e : exn) :
  (Rows.Model_save pk with_pk violation force_insert self table).1.1 = Raise e →
  Rows.Model_save pk with_pk violation force_insert self table
  = (Raise e, self, table).
Proof.
  unfold Rows.Model_save, Rows.update, Rows.insert.
  repeat (match goal with
          | |- context [match ?x with _ => _ end] => destruct x
          end; cbn [fst snd]; try done);
    by intros [= ->].
Qed.

(** The error-capturing [save] raises exactly when the save behind it
    raises and, in the [except] clause, the project or the fields of the
    instance cannot be read or the error row is refused; the error table
    is then as it was. *)
Lemma mixin_save_Raise {E T} `{ProjectRelatedModel E T}
    (ProjectError_check : ProjectError.t → option exn) (force_insert : bool)
    (self : E) (table : T) (errors : list ProjectError.t) :
  let behind := super_save force_insert self table in
  let out := SaveProjectErrorMixin.save ProjectError_check force_insert self
               (table, errors) in
  ((∃ e, out.1.1 = Raise e) ↔
   ∃ e, behind.1.1 = Raise e ∧
        match get_project behind.1.2, model_to_dict behind.1.2 with
        | Ok project, Ok details =>
            is_Some (ProjectError_check
                       (ProjectError.mk project class_name details
                          (exn_message e)
                          (String.concat "" (exn_frames e))))
        | _, _ => True
        end)
  ∧ ((∃ e, out.1.1 = Raise e) → out.2 = (behind.2, errors)).
Proof.
  intros behind out. subst behind out. unfold SaveProjectErrorMixin.save.
  destruct (super_save force_insert self table) as [[[[]|e] self'] table'];
    cbn [fst snd].
  - split; [|by intros [? ?]]. split; [by intros [? ?] | by intros (? & ? & _)].
  - destruct (get_project self') as [project|e'].
    + destruct (model_to_dict self') as [details|e'].
      * unfold ProjectError.objects_create,
          SaveProjectErrorMixin.format_traceback.
        destruct (ProjectError_check _) as [e'|] eqn:Hrow; cbn [fst snd].
        -- split; [|done]. split; [|by eexists]. intros _. exists e.
           split; [done |]. by rewrite Hrow.
        -- split; [|by intros [? ?]]. split; [by intros [? ?] |].
           intros (e0 & [= <-] & Hsome). rewrite Hrow in Hsome.
           by destruct Hsome.
      * cbn [fst snd]. split; [|done]. split; [|by eexists].
        intros _. by exists e.
    + cbn [fst snd]. split; [|done]. split; [|by eexists].
      intros _. by exists e.
Qed.

(** X14. [set_scan_results] raises in two cases and no other: the mapping
    holds a truthy value under [project] or [discovered_packages]; or a
    save is asked for, the write of the updated resource is refused and, in
    the [except] clause of the error-capturing [save], the project of the
    resource cannot be fetched or the error row is refused as well.
    Whenever it raises, nothing has been written: the resource table and
    the error table are as before. *)
Theorem set_scan_results_raises_iff (AbstractResource_fields : list string)
    (AbstractResource_check : CodebaseResource.t → option exn)
    (AbstractResource_editable : list (string * pyval))
    (Project_fetch : N → option exn)
    (ProjectError_check : ProjectError.t → option exn)
    (self : CodebaseResource.t) (scan_results : list (string * pyval))
    (save : bool) (st : list CodebaseResource.t * list ProjectError.t) :
  let out := CodebaseResource.set_scan_results AbstractResource_fields
               AbstractResource_check AbstractResource_editable
               Project_fetch ProjectError_check self scan_results save st in
  let updated := (CodebaseResource.set_scan_results_loop
                    AbstractResource_fields self scan_results).2 in
  let behind := super_save
                  (ProjectRelatedModel := CodebaseResource.resource_model
                     AbstractResource_check AbstractResource_editable
                     Project_fetch) false updated st.1 in
  ((∃ e, out.1.1 = Raise e)
   ↔ (∃ f v, (f, v) ∈ scan_results ∧ truthy v = true ∧
             (f = "project" ∨ f = "discovered_packages"))
     ∨ (save = true ∧
        ∃ e, behind.1.1 = Raise e ∧
             (is_Some (Project_fetch (CodebaseResource.project updated)) ∨
              is_Some (ProjectError_check
                         (ProjectError.mk (CodebaseResource.project updated)
                            "CodebaseResource"
                            (map (value_from_object
                                    (CodebaseResource.attrs updated))
                               (AbstractResource_editable ++
                                CodebaseResource.declared_defaults))
                            (exn_message e)
                            (String.concat "" (exn_frames e)))))))
  ∧ ((∃ e, out.1.1 = Raise e) → out.2 = st).
Proof.
  intros out updated behind. subst out updated behind.
  rewrite <- (set_scan_results_loop_Raise AbstractResource_fields
                scan_results self).
  unfold CodebaseResource.set_scan_results.
  destruct (CodebaseResource.set_scan_results_loop _ self scan_results)
    as [[[]|e] self'] eqn:Hloop; cbn [fst snd].
  - destruct save.
    + destruct st as [table errors].
      pose proof (mixin_save_Raise
                    (H := CodebaseResource.resource_model
                            AbstractResource_check AbstractResource_editable
                            Project_fetch)
                    ProjectError_check false self' table errors) as Hm.
      cbv zeta in Hm. destruct Hm as [Hiff Hst]. cbn [fst snd].
      assert (Hbehind : ∀ e,
                (super_save
                   (ProjectRelatedModel := CodebaseResource.resource_model
                      AbstractResource_check AbstractResource_editable
                      Project_fetch)
                   false self' table).1.1 = Raise e →
                super_save
                  (ProjectRelatedModel := CodebaseResource.resource_model
                     AbstractResource_check AbstractResource_editable
                     Project_fetch)
                  false self' table = (Raise e, self', table)).
      { intros e. apply Model_save_Raise. }
      assert (Hexcept : ∀ e,
                match get_project
                        (ProjectRelatedModel :=
                           CodebaseResource.resource_model
                             AbstractResource_check AbstractResource_editable
                             Project_fetch) self',
                      model_to_dict
                        (ProjectRelatedModel :=
                           CodebaseResource.resource_model
                             AbstractResource_check AbstractResource_editable
                             Project_fetch) self' with
                | Ok project, Ok details =>
                    is_Some (ProjectError_check
                               (ProjectError.mk project "CodebaseResource"
                                  details (exn_message e)
                                  (String.concat "" (exn_frames e))))
                | _, _ => True
                end
                ↔ is_Some (Project_fetch (CodebaseResource.project self')) ∨
                  is_Some (ProjectError_check
                             (ProjectError.mk (CodebaseResource.project self')
                                "CodebaseResource"
                                (map (value_from_object
                                        (CodebaseResource.attrs self'))
                                   (AbstractResource_editable ++
                                    CodebaseResource.declared_defaults))
                                (exn_message e)
                                (String.concat "" (exn_frames e))))).
      { intros e. cbn [get_project model_to_dict
                       CodebaseResource.resource_model].
        destruct (Project_fetch (CodebaseResource.project self')) as [e'|].
        - split; [intros _; left; by eexists | done].
        - split; [by right | by intros [[? [=]]|?]]. }
      split.
      * rewrite Hiff. split.
        -- intros (e & He & Hrow). right. split; [done |]. exists e.
           split; [done |]. apply Hexcept.
           by rewrite (Hbehind e He) in Hrow.
        -- intros [[e' ?]|[_ (e & He & Hrow)]]; [done |]. exists e.
           split; [done |]. rewrite (Hbehind e He). by apply Hexcept.
      * intros Hr. rewrite (Hst Hr). apply Hiff in Hr as (e & He & _).
        by rewrite (Hbehind e He).
    + cbn [fst snd]. split; [|done].
      split; [by intros [e ?] | by intros [[e ?]|[? _]]].
  - split; [|done]. split; intros _; [left |]; by exists e.
Qed.

(** ** Query sets *)

Lemma filter_negb_Permutation {A} (f : A → bool) (l : list A) :
  l ≡ₚ List.filter (fun x => negb (f x)) l ++ List.filter f l.
Proof.
  induction l as [|a l IH]; [done |]. simpl.
  destruct (f a); simpl.
  - rewrite <- Permutation_middle. by constructor.
  - by constructor.
Qed.

Lemma elem_of_filter_bool {A} (f : A → bool) (l : list A) (x : A) :
  x ∈ List.filter f l ↔ x ∈ l ∧ f x = true.
Proof. by rewrite !list_elem_of_In, filter_In. Qed.

(** X15. [status()] and [no_status()] split a query set in two: each row
    is in exactly one of them, as often as it is in the query set. *)
Theorem status_and_no_status_partition {R} (status_of : R → string)
    (rows : list R) :
  rows ≡ₚ QuerySet.status status_of None rows ++ QuerySet.no_status status_of rows
  ∧ ∀ row, ¬ (row ∈ QuerySet.status status_of None rows ∧
              row ∈ QuerySet.no_status status_of rows).
Proof.
  split.
  - apply filter_negb_Permutation.
  - unfold QuerySet.status, QuerySet.no_status, QuerySet.exclude_status,
      QuerySet.filter_status.
    intros row [[_ H1]%elem_of_filter_bool [_ H2]%elem_of_filter_bool].
    by rewrite H2 in H1.
Qed.

(** X16. Whatever its argument, [status] never selects a row whose status
    is empty: with a status that is not empty it selects the rows of
    exactly that status, and with [None] or with the empty text it
    selects every row that has a status, not the rows without one. *)
Theorem status_never_selects_unset {R} (status_of : R → string)
    (s : option string) (rows : list R) (row : R) :
  row ∈ QuerySet.status status_of s rows
  ↔ row ∈ rows ∧ status_of row ≠ "" ∧
    ∀ s', s = Some s' → s' ≠ "" → status_of row = s'.
Proof.
  unfold QuerySet.status, QuerySet.exclude_status, QuerySet.filter_status.
  destruct s as [s|].
  - destruct (String.eqb_spec s "") as [->|Hs]; cbn [negb];
      rewrite elem_of_filter_bool.
    + rewrite negb_true_iff, String.eqb_neq.
      split; [intros [? ?]; repeat split; try done; by intros ? [= <-] |].
      by intros (? & ? & _).
    + rewrite String.eqb_eq. split.
      * intros [? ->]. repeat split; try done. by intros ? [= <-].
      * intros (? & _ & H). split; [done |]. by apply H.
  - rewrite elem_of_filter_bool, negb_true_iff, String.eqb_neq.
    split; [intros [? ?]; repeat split; done | by intros (? & ? & _)].
Qed.

(** X17. The filter on the project and the filter on the status can be
    chained in either order. *)
Theorem project_and_status_commute {R} (project_of : R → N)
    (status_of : R → string) (p : Project.t) (s : option string)
    (rows : list R) :
  QuerySet.status status_of s (QuerySet.project project_of p rows)
  = QuerySet.project project_of p (QuerySet.status status_of s rows)
  ∧ QuerySet.no_status status_of (QuerySet.project project_of p rows)
    = QuerySet.project project_of p (QuerySet.no_status status_of rows).
Proof.
  assert (Hc : ∀ (f g : R → bool) l,
            List.filter f (List.filter g l) = List.filter g (List.filter f l)).
  { intros f g l. induction l as [|a l IH]; [done |]. simpl.
    destruct (f a) eqn:Hf, (g a) eqn:Hg; simpl; rewrite ?Hf, ?Hg, IH; done. }
  unfold QuerySet.status, QuerySet.no_status, QuerySet.project,
    QuerySet.exclude_status, QuerySet.filter_status.
  split; [|apply Hc].
  destruct s as [s|]; [|apply Hc].
  destruct (negb (String.eqb s "")); apply Hc.
Qed.

(** ** CodebaseResource.location *)

Lemma string_of_list_ascii_inv (l : list ascii) :
  String.list_ascii_of_string (String.string_of_list_ascii l) = l.
Proof. apply String.list_ascii_of_string_of_list_ascii. Qed.

Lemma forallb_rev {A} (f : A → bool) (l : list A) :
  forallb f (rev l) = forallb f l.
Proof.
  induction l as [|a l IH]; [done |]. simpl.
  rewrite forallb_app, IH. simpl. rewrite andb_true_r. apply andb_comm.
Qed.

(** The components [split_slash] gives hold no slash. *)
Lemma split_slash_slash_free (cur : list ascii) (s c : string) :
  forallb (fun a => negb (Ascii.eqb a "/"%char)) cur = true →
  c ∈ FS.split_slash cur s → FS.slash_free c = true.
Proof.
  revert cur. induction s as [|x s IH]; intros cur Hcur; simpl.
  - intros [->|[]%elem_of_nil]%elem_of_cons. unfold FS.slash_free.
    by rewrite string_of_list_ascii_inv, forallb_rev.
  - destruct (Ascii.eqb x "/"%char) eqn:Hx.
    + intros [->|Hin]%elem_of_cons.
      * unfold FS.slash_free.
        by rewrite string_of_list_ascii_inv, forallb_rev.
      * by apply (IH []).
    + apply IH. simpl. by rewrite Hx.
Qed.

Lemma Path_names_ok (s c : string) :
  c ∈ List.filter FS.is_name (FS.split_slash [] s) →
  FS.is_name c = true ∧ FS.slash_free c = true.
Proof.
  intros [Hin Hn]%elem_of_filter_bool. split; [done |].
  by apply (split_slash_slash_free [] s).
Qed.

Lemma lstrip_slash_snoc (l : list ascii) (c : ascii) :
  Ascii.eqb c "/"%char = false →
  CodebaseResource.lstrip_slash (l ++ [c])
  = CodebaseResource.lstrip_slash l ++ [c].
Proof.
  intros Hc. induction l as [|x l IH]; simpl; [by rewrite Hc |].
  by destruct (Ascii.eqb x "/"%char).
Qed.

Lemma lstrip_slash_head (l : list ascii) :
  match CodebaseResource.lstrip_slash l with
  | c :: _ => Ascii.eqb c "/"%char = false
  | [] => True
  end.
Proof.
  induction l as [|x l IH]; simpl; [done |].
  destruct (Ascii.eqb x "/"%char) eqn:Hx; [done | by simpl].
Qed.

(** What [strip("/")] returns does not start with a slash. *)
Lemma strip_slash_head (s : string) :
  match CodebaseResource.strip_slash s with
  | String c _ => Ascii.eqb c "/"%char = false
  | EmptyString => True
  end.
Proof.
  unfold CodebaseResource.strip_slash.
  pose proof (lstrip_slash_head (String.list_ascii_of_string s)) as H.
  destruct (CodebaseResource.lstrip_slash (String.list_ascii_of_string s))
    as [|c l]; [done |].
  simpl. rewrite lstrip_slash_snoc by done. rewrite rev_app_distr. by simpl.
Qed.

Lemma slash_free_not_anchor (c : string) :
  FS.slash_free c = true → String.eqb c "/" || String.eqb c "//" = false.
Proof.
  intros H. apply orb_false_iff.
  split; apply String.eqb_neq; intros ->; done.
Qed.

(** The path of a stripped text is relative. *)
Lemma Path_strip_relative (s : string) :
  FS.is_absolute (FS.Path (CodebaseResource.strip_slash s)) = false.
Proof.
  unfold FS.Path.
  pose proof (strip_slash_head s) as Hh.
  assert (Ha : FS.anchor (CodebaseResource.strip_slash s) = []).
  { destruct (CodebaseResource.strip_slash s) as [|c t]; [done |].
    unfold FS.anchor.
    destruct (Ascii.eqb_spec c "/"%char) as [->|Hne]; [done |].
    destruct c as [[] [] [] [] [] [] [] []]; try done. }
  rewrite Ha. cbn [app].
  destruct (List.filter FS.is_name
              (FS.split_slash [] (CodebaseResource.strip_slash s)))
    as [|c names] eqn:Hf; [done |].
  cbn [FS.is_absolute]. apply slash_free_not_anchor.
  apply (Path_names_ok (CodebaseResource.strip_slash s)).
  rewrite Hf. by left.
Qed.

(** X18. The location of a resource always lies below the [codebase]
    directory of its project: the slashes at the start of the path are
    stripped, so that an absolute path does not replace the directory it
    is joined to. *)
Theorem location_below_codebase (project : Project.t) (path : string) :
  CodebaseResource.location_path project path
  = Project.codebase_path project
    ++ FS.Path (CodebaseResource.strip_slash path)
  ∧ Project.codebase_path project
    `prefix_of` CodebaseResource.location_path project path.
Proof.
  assert (H : CodebaseResource.location_path project path
              = Project.codebase_path project
                ++ FS.Path (CodebaseResource.strip_slash path)).
  { unfold CodebaseResource.location_path, FS.joinpath.
    by rewrite Path_strip_relative. }
  split; [done |]. rewrite H. by eexists.
Qed.

(** The location of an absolute path and of a path with a slash at its
    end. *)
Example location_sample :
  CodebaseResource.location Sample.acme "/usr/bin/bash/"
  = "/var/scancodeio/projects/acme-1a2b3c4d/codebase/usr/bin/bash".
Proof. vm_compute; reflexivity. Qed.

(** A text that does not start with a slash. *)
Lemma no_slash_head_cases (s : string) :
  match s with
  | String c _ => Ascii.eqb c "/"%char = false
  | EmptyString => True
  end →
  FS.anchor s = [] ∧ FS.anchor (String "/"%char s) = ["/"] ∧
  FS.anchor (String "/"%char (String "/"%char s)) = ["//"].
Proof.
  destruct s as [|c t]; [done |]. intros Hc. unfold FS.anchor.
  destruct c as [[] [] [] [] [] [] [] []]; done.
Qed.

Lemma split_slash_append (cur : list ascii) (c s : string) :
  FS.slash_free c = true →
  FS.split_slash cur (c +:+ s)
  = FS.split_slash (rev (String.list_ascii_of_string c) ++ cur) s.
Proof.
  revert cur. induction c as [|x c IH]; intros cur Hc; [done |].
  unfold FS.slash_free in Hc. simpl in Hc.
  apply andb_true_iff in Hc as [Hx Hc]. apply negb_true_iff in Hx.
  simpl. rewrite Hx, IH by done. by rewrite <- app_assoc.
Qed.

Lemma split_slash_one (c : string) :
  FS.slash_free c = true → FS.split_slash [] c = [c].
Proof.
  intros Hc. rewrite <- (append_empty_r c) at 1.
  rewrite split_slash_append by done. simpl.
  by rewrite app_nil_r, rev_involutive, String.string_of_list_ascii_of_string.
Qed.

(** Splitting the names joined by slashes gives the names back. *)
Lemma split_slash_concat (names : list string) :
  Forall (fun c => FS.slash_free c = true) names → names ≠ [] →
  FS.split_slash [] (String.concat "/" names) = names.
Proof.
  induction names as [|c names IH]; intros Hall Hne; [done |].
  apply Forall_cons in Hall as [Hc Hall].
  destruct names as [|c' names]; [by apply split_slash_one |].
  change (String.concat "/" (c :: c' :: names))
    with (c +:+ "/" +:+ String.concat "/" (c' :: names)).
  rewrite split_slash_append by done.
  change ("/" +:+ String.concat "/" (c' :: names))
    with (String "/"%char (String.concat "/" (c' :: names))).
  cbn [FS.split_slash Ascii.eqb Bool.eqb]. cbn [andb].
  rewrite app_nil_r, rev_involutive, String.string_of_list_ascii_of_string.
  f_equal. by apply IH.
Qed.

Lemma filter_is_name_all (names : list string) :
  Forall (fun c => FS.is_name c = true ∧ FS.slash_free c = true) names →
  List.filter FS.is_name names = names.
Proof.
  intros H. apply filter_all. intros c Hc.
  by apply (proj1 (Forall_forall _ _) H c).
Qed.

(** The text of the names joined by slashes does not start with one. *)
Lemma concat_no_slash_head (names : list string) :
  Forall (fun c => FS.is_name c = true ∧ FS.slash_free c = true) names →
  match String.concat "/" names with
  | String c _ => Ascii.eqb c "/"%char = false
  | EmptyString => True
  end.
Proof.
  destruct names as [|c names]; [done |]. intros [[Hn Hs] _]%Forall_cons.
  assert (Hc : match c with
               | String x _ => Ascii.eqb x "/"%char = false
               | EmptyString => False
               end).
  { destruct c as [|x c]; [done |]. unfold FS.slash_free in Hs. simpl in Hs.
    apply andb_true_iff in Hs as [Hx _]. by apply negb_true_iff in Hx. }
  destruct c as [|x c]; [done |].
  destruct names; simpl; done.
Qed.

(** Parsing the text of a clean path gives the path back. *)
Lemma Path_str_path (p : FS.path) : FS.clean p → FS.Path (FS.str_path p) = p.
Proof.
  intros (a & names & -> & Ha & Hnames).
  pose proof (concat_no_slash_head names Hnames) as Hhead.
  destruct (no_slash_head_cases _ Hhead) as (A0 & A1 & A2).
  assert (Hsplit : List.filter FS.is_name
                     (FS.split_slash [] (String.concat "/" names)) = names).
  { destruct names as [|c names]; [done |].
    rewrite split_slash_concat; [by apply filter_is_name_all | | done].
    eapply Forall_impl; [exact Hnames |]. by intros ? [_ ?]. }
  destruct Ha as [->|[->| ->]].
  - cbn [app]. destruct names as [|c names]; [done |].
    assert (Hrel : FS.is_absolute (c :: names) = false).
    { apply Forall_cons in Hnames as [[_ Hs] _].
      by apply slash_free_not_anchor. }
    unfold FS.str_path. rewrite Hrel. unfold FS.Path. by rewrite A0, Hsplit.
  - cbn [app FS.str_path FS.is_absolute String.eqb Ascii.eqb Bool.eqb].
    cbn [andb orb]. unfold FS.Path.
    change ("/" +:+ String.concat "/" names)
      with (String "/"%char (String.concat "/" names)).
    rewrite A1. cbn [FS.split_slash Ascii.eqb Bool.eqb]. cbn [andb].
    cbn [rev String.string_of_list_ascii List.filter FS.is_name].
    cbn. by rewrite Hsplit.
  - cbn [app FS.str_path FS.is_absolute]. unfold FS.Path.
    change (String.eqb "//" "/" || String.eqb "//" "//") with true.
    cbn iota.
    change ("//" +:+ String.concat "/" names)
      with (String "/"%char (String "/"%char (String.concat "/" names))).
    rewrite A2. cbn [FS.split_slash Ascii.eqb Bool.eqb]. cbn [andb].
    cbn [rev String.string_of_list_ascii List.filter FS.is_name].
    cbn. by rewrite Hsplit.
Qed.

Lemma Path_clean (s : string) : FS.clean (FS.Path s).
Proof.
  exists (FS.anchor s), (List.filter FS.is_name (FS.split_slash [] s)).
  split; [done |]. split.
  - unfold FS.anchor. destruct s as [|c s]; [by left |].
    destruct (Ascii.eqb_spec c "/"%char) as [->|Hne].
    + destruct s as [|c2 s]; [right; by left |].
      destruct (Ascii.eqb_spec c2 "/"%char) as [->|Hne2].
      * destruct s as [|c3 s]; [right; by right |].
        destruct (Ascii.eqb_spec c3 "/"%char) as [->|Hne3]; [right; by left |].
        destruct c3 as [[] [] [] [] [] [] [] []]; try done; right; by right.
      * destruct c2 as [[] [] [] [] [] [] [] []]; try done; right; by left.
    + destruct c as [[] [] [] [] [] [] [] []]; try done; by left.
  - apply Forall_forall. intros c Hc. by apply (Path_names_ok s).
Qed.

Lemma clean_app (p : FS.path) (names : list string) :
  FS.clean p →
  Forall (fun c => FS.is_name c = true ∧ FS.slash_free c = true) names →
  FS.clean (p ++ names).
Proof.
  intros (a & l & -> & Ha & Hl) Hn. exists a, (l ++ names).
  split; [by rewrite app_assoc |]. split; [done |]. by apply Forall_app.
Qed.

(** X19. The text [location] returns is the text of a path below the
    [codebase] directory: parsed again, it is the path of the project's
    [codebase] directory followed by the names of the resource path. *)
Theorem location_parses_back (project : Project.t) (path : string) :
  FS.Path (CodebaseResource.location project path)
  = Project.codebase_path project
    ++ List.filter FS.is_name
         (FS.split_slash [] (CodebaseResource.strip_slash path)).
Proof.
  assert (Hrel : FS.Path (CodebaseResource.strip_slash path)
                 = List.filter FS.is_name
                     (FS.split_slash [] (CodebaseResource.strip_slash path))).
  { unfold FS.Path.
    pose proof (strip_slash_head path) as Hh.
    by destruct (no_slash_head_cases _ Hh) as (-> & _). }
  assert (Hnames : Forall (fun c => FS.is_name c = true ∧ FS.slash_free c = true)
             (List.filter FS.is_name
                (FS.split_slash [] (CodebaseResource.strip_slash path)))).
  { apply Forall_forall. intros c Hc.
    by apply (Path_names_ok (CodebaseResource.strip_slash path)). }
  unfold CodebaseResource.location, CodebaseResource.location_path, FS.joinpath.
  rewrite Path_strip_relative, Hrel.
  apply Path_str_path. apply clean_app; [|done].
  unfold Project.codebase_path, FS.joinpath, Project.work_path.
  change (FS.is_absolute (FS.Path "codebase")) with false. cbn iota.
  apply clean_app; [apply Path_clean |].
  change (FS.Path "codebase") with ["codebase"].
  by apply Forall_singleton.
Qed.

(** ** DiscoveredPackage.create_from_data, when it fails *)




(** The package data of the samples with a number for qualifiers: the
    call raises what the normalization raises. With a database that cannot
    be reached, the insert and the error row are both refused, and the
    call raises as well. *)
Example create_from_data_bad_qualifiers_sample :
  (DiscoveredPackage.create_from_data Sample.package_fields
     Sample.accept_package Sample.normalize Sample.package_editable
     Sample.no_related Sample.accept_error 7
     Sample.package_data_bad_qualifiers ([], [])).1.1
  = Raise (ValueError "Invalid qualifier.").
Proof. vm_compute; reflexivity. Qed.

Example create_from_data_unreachable_sample :
  let out := DiscoveredPackage.create_from_data Sample.package_fields
               Sample.unreachable_package Sample.normalize
               Sample.package_editable Sample.no_related
               Sample.unreachable_error 7 Sample.package_data ([], []) in
  out.1.1 = Raise Sample.connection_lost ∧ out.2 = ([], []).
Proof. split; vm_compute; reflexivity. Qed.



(** ** Project.add_pipeline and the queue of runs *)

(** A run appended to the rows is the earliest only when it is strictly
    older than the earliest of the rows. *)
Lemma earliest_app (rows : list Run.t) (x : Run.t) :
  Project.earliest (rows ++ [x])
  = match Project.earliest rows with
    | Some r =>
        if (Run.created_date r <=? Run.created_date x)%Z
        then Some r else Some x
    | None => Some x
    end.
Proof.
  induction rows as [|a rows IH]; [done |].
  cbn [app Project.earliest]. rewrite IH.
  destruct (Project.earliest rows) as [r|] eqn:Er.
  - repeat (match goal with
            | |- context [(?a <=? ?b)%Z] => destruct (Z.leb_spec a b)
            end; try done; try lia).
  - apply earliest_None in Er as ->. cbn [Project.earliest].
    by destruct (Z.leb_spec (Run.created_date a) (Run.created_date x)).
Qed.

Lemma filter_snoc {A} (f : A → bool) (l : list A) (x : A) :
  List.filter f (l ++ [x])
  = List.filter f l ++ (if f x then [x] else []).
Proof. by rewrite List.filter_app. Qed.

(** Where [add_pipeline] leaves the run table. *)
Lemma add_pipeline_table (get_pipeline_doc : string → res string)
    (task_defaults : option string * option Z * string)
    (Run_check : Run.t → option exn)
    (self : Project.t) (pipeline : string) (u : N) (now : Z)
    (table : list Run.t) :
  let out := Project.add_pipeline get_pipeline_doc task_defaults Run_check
               self pipeline u now table in
  match out.1 with
  | Ok run =>
      out.2 = table ++ [run] ∧ Run.uuid run = u ∧
      Run.project run = Project.uuid self ∧ Run.pipeline run = pipeline ∧
      Run.created_date run = now ∧ Run.task_id run = task_defaults.1.1 ∧
      get_pipeline_doc pipeline = Ok (Run.description run) ∧
      Forall (fun r => Run.uuid r ≠ u) table
  | Raise _ => out.2 = table
  end.
Proof.
  unfold Project.add_pipeline.
  destruct (get_pipeline_doc pipeline) as [description|e]; [|done].
  destruct (Run_check _); [done |].
  destruct (existsb _ table) eqn:Hex; [done |]. cbn [fst snd].
  repeat split; try done.
  apply Forall_forall. intros r Hr Hu.
  apply not_true_iff_false in Hex. apply Hex. apply existsb_exists.
  exists r. split; [by apply list_elem_of_In | by apply N.eqb_eq].
Qed.

(** X22. A pipeline added to a project does not jump the queue. When new
    runs start without task id and every run of the table was created
    before [now], a successful [add_pipeline] leaves the next run of the
    project as it was if there was one, and makes the new run the next one
    otherwise. *)
Theorem add_pipeline_queues_last (get_pipeline_doc : string → res string)
    (task_defaults : option string * option Z * string)
    (Run_check : Run.t → option exn)
    (self : Project.t) (pipeline : string) (u : N) (now : Z)
    (table : list Run.t) (run : Run.t) :
  let out := Project.add_pipeline get_pipeline_doc task_defaults Run_check
               self pipeline u now table in
  task_defaults.1.1 = None →
  Forall (fun r => (Run.created_date r < now)%Z) table →
  out.1 = Ok run →
  Project.get_next_run self out.2
  = Some (default run (Project.get_next_run self table)).
Proof.
  intros out Hnull Hdates Hok.
  pose proof (add_pipeline_table get_pipeline_doc task_defaults Run_check
                self pipeline u now table) as Ht.
  cbv zeta in Ht. fold out in Ht. rewrite Hok in Ht.
  destruct Ht as (-> & _ & Hproject & _ & Hdate & Htask & _).
  unfold Project.get_next_run, Project.runs.
  rewrite !filter_snoc, Hproject, N.eqb_refl, List.filter_app.
  cbn [List.filter]. rewrite Htask, Hnull. cbn [Project.is_null].
  rewrite earliest_app.
  destruct (Project.earliest _) as [r|] eqn:Er; [|done]. cbn [default].
  apply earliest_Some in Er as [Hin _].
  apply list_elem_of_In, filter_In in Hin as [Hin _].
  apply filter_In in Hin as [Hin _]. apply list_elem_of_In in Hin.
  pose proof (proj1 (Forall_forall _ _) Hdates r Hin) as Hle. cbn in Hle.
  rewrite Hdate. by destruct (Z.leb_spec (Run.created_date r) now); [|lia].
Qed.

(** The run table of the samples, where the run created at 20 is the next
    of project 7, and a pipeline added at 40. *)
Lemma add_pipeline_queues_last_witness :
  let self := Project.mk false 7 0 "acme" "" PNone in
  Project.get_next_run self
    (Project.add_pipeline Sample.pipeline_doc Sample.task_defaults
       Sample.accept_run self "scanpipe/pipelines/docker.py" 9 40
       Sample.run_table).2
  = Some (Sample.queued 4 7 20).
Proof.
  intros self.
  refine (add_pipeline_queues_last Sample.pipeline_doc Sample.task_defaults
            Sample.accept_run self "scanpipe/pipelines/docker.py" 9 40
            Sample.run_table
            (Run.mk 9 7 "scanpipe/pipelines/docker.py" 40
               "A pipeline to analyze a Docker image." None None "")
            _ _ _).
  - reflexivity.
  - repeat constructor.
  - reflexivity.
Defined.

(** X23. [add_pipeline] on one project does not change the runs of
    another, nor its next run, whatever its outcome. *)
Theorem add_pipeline_other_project (get_pipeline_doc : string → res string)
    (task_defaults : option string * option Z * string)
    (Run_check : Run.t → option exn)
    (self other : Project.t) (pipeline : string) (u : N) (now : Z)
    (table : list Run.t) :
  let out := Project.add_pipeline get_pipeline_doc task_defaults Run_check
               self pipeline u now table in
  Project.uuid other ≠ Project.uuid self →
  Project.runs other out.2 = Project.runs other table
  ∧ Project.get_next_run other out.2 = Project.get_next_run other table.
Proof.
  intros out Hne.
  assert (Hruns : Project.runs other out.2 = Project.runs other table).
  { pose proof (add_pipeline_table get_pipeline_doc task_defaults Run_check
                  self pipeline u now table) as Ht.
    cbv zeta in Ht. fold out in Ht. destruct (out.1) as [run|e]; [|by rewrite Ht].
    destruct Ht as (-> & _ & Hproject & _).
    unfold Project.runs. rewrite filter_snoc, Hproject.
    apply not_eq_sym, N.eqb_neq in Hne. by rewrite Hne, app_nil_r. }
  split; [exact Hruns |]. unfold Project.get_next_run. by rewrite Hruns.
Qed.

(** A pipeline added to project 7 next to the one run of project 8. *)
Lemma add_pipeline_other_project_witness :
  let self := Project.mk false 7 0 "acme" "" PNone in
  let other := Project.mk false 8 0 "zeta" "" PNone in
  let out := Project.add_pipeline Sample.pipeline_doc Sample.task_defaults
               Sample.accept_run self "scanpipe/pipelines/docker.py" 9 1
               Sample.run_table in
  Project.runs other out.2 = Project.runs other Sample.run_table
  ∧ Project.get_next_run other out.2
    = Project.get_next_run other Sample.run_table.
Proof.
  intros self other.
  refine (add_pipeline_other_project Sample.pipeline_doc Sample.task_defaults
            Sample.accept_run self other "scanpipe/pipelines/docker.py" 9 1
            Sample.run_table _).
  vm_compute; discriminate.
Defined.

(** X24. [add_pipeline] keeps the primary keys of the run table distinct;
    when it raises (the pipeline has no documentation to be found, the
    database refuses the row, the key is taken) the table is as it was, and
    when it returns the table has the returned run as its one new row, at
    the end. *)
Theorem add_pipeline_keeps_keys_distinct
    (get_pipeline_doc : string → res string)
    (task_defaults : option string * option Z * string)
    (Run_check : Run.t → option exn)
    (self : Project.t) (pipeline : string) (u : N) (now : Z)
    (table : list Run.t) :
  let out := Project.add_pipeline get_pipeline_doc task_defaults Run_check
               self pipeline u now table in
  NoDup (Run.uuid <$> table) →
  NoDup (Run.uuid <$> out.2)
  ∧ match out.1 with
    | Ok run =>
        out.2 = table ++ [run] ∧ (run ∉ table) ∧
        Run.project run = Project.uuid self
    | Raise _ => out.2 = table
    end.
Proof.
  intros out Hnodup.
  pose proof (add_pipeline_table get_pipeline_doc task_defaults Run_check
                self pipeline u now table) as Ht.
  cbv zeta in Ht. fold out in Ht. destruct (out.1) as [run|e]; [|by rewrite Ht].
  destruct Ht as (Heq & Hu & Hproject & _ & _ & _ & _ & Hfresh).
  assert (Hnotin : Run.uuid run ∉ Run.uuid <$> table).
  { intros (r & Hr & Hin)%list_elem_of_fmap.
    apply (proj1 (Forall_forall _ _) Hfresh r Hin). congruence. }
  split; [|split; [done | split; [|done]]].
  - rewrite Heq, fmap_app. apply NoDup_app. split; [done |].
    split; [|apply NoDup_singleton].
    intros x Hx Hx'%list_elem_of_singleton. by subst x.
  - intros Hin. apply Hnotin. apply list_elem_of_fmap. by exists run.
Qed.

(** The run table of the samples and a key that is taken: nothing is
    written. *)
Lemma add_pipeline_keeps_keys_distinct_witness :
  let self := Project.mk false 7 0 "acme" "" PNone in
  let out := Project.add_pipeline Sample.pipeline_doc Sample.task_defaults
               Sample.accept_run self "scanpipe/pipelines/docker.py" 2 40
               Sample.run_table in
  NoDup (Run.uuid <$> out.2)
  ∧ match out.1 with
    | Ok run =>
        out.2 = Sample.run_table ++ [run] ∧ (run ∉ Sample.run_table) ∧
        Run.project run = Project.uuid self
    | Raise _ => out.2 = Sample.run_table
    end.
Proof.
  intros self.
  refine (add_pipeline_keeps_keys_distinct Sample.pipeline_doc
            Sample.task_defaults Sample.accept_run self
            "scanpipe/pipelines/docker.py" 2 40 Sample.run_table _).
  refine (bool_decide_unpack _ _). vm_compute. exact I.
Defined.
